(** * go-gitops-app: request pipeline, stress parameters and load generator

    A shallow embedding of the Go sources of the service
    (internal/handlers, internal/middleware, pkg/response, pkg/metrics and
    cmd/main.go) together with the properties the specification states
    about them.

    Go [int] and [time.Duration] values are integers of 64 bits; they are
    carried as [Z] and the one arithmetic operation that could leave the
    range ([numCPU * 2]) has its wrap-around written out. *)

From Stdlib Require Import ZArith String Ascii List Lia DecimalString.
From stdpp Require Import base tactics option list strings gmap.

Local Open Scope string_scope.
Local Open Scope list_scope.
Local Open Scope Z_scope.

(** ** Machine integers *)

Definition wrap64 (z : Z) : Z := (z + 2 ^ 63) mod 2 ^ 64 - 2 ^ 63.

Definition int64_min : Z := - 2 ^ 63.
Definition int64_max : Z := 2 ^ 63 - 1.

(** [strconv.Itoa]: the decimal representation, with a leading minus sign
    for negative numbers. *)
Definition Itoa (n : Z) : string := NilEmpty.string_of_int (Z.to_int n).

(** ** Requests *)

(** The part of [http.Request] the handlers and the middleware read.
    [Query] is [r.URL.Query()]: the key/value pairs of the query string in
    their order of appearance. *)
Record Request := mkRequest {
  Method : string;
  Path : string;
  Query : list (string * string);
  RemoteAddr : string;
  UserAgent : string
}.

(** [url.Values.Get]: the first value of the key, the empty string when
    the key is absent. *)
Fixpoint queryGet (q : list (string * string)) (key : string) : string :=
  match q with
  | [] => EmptyString
  | (k, v) :: rest => if String.eqb k key then v else queryGet rest key
  end.

(** ** Stress parameters (internal/handlers) *)

Definition second : Z := 1000000000.

Definition defaultStressDuration : Z := 2 * second.
Definition maxStressDuration : Z := 30 * second.

(** [int(d.Seconds())] for a duration [d] in nanoseconds: the conversion
    of the floating-point number of seconds to [int] drops the fraction,
    towards zero.  [Duration.Seconds] computes the quotient and the
    remainder on integers and adds them as float64; below 2^23 seconds
    that sum cannot reach the next integer, so the result is the integer
    quotient.  Longer durations are far above every bound of this file. *)
Definition durationToSeconds (d : Z) : Z := Z.quot d second.

Record StressRequest := mkStressRequest {
  DurationSeconds : Z;
  Workers : Z
}.

Record ValidationError := mkValidationError {
  Field : string;
  Message : string
}.

(** The [Error] method of [ValidationError]. *)
Definition Error_ (e : ValidationError) : string := Message e.

(** One entry of [validator.ValidationErrors]: the struct field that
    failed and the tag that rejected it. *)
Record FieldError := mkFieldError {
  feField : string;
  feTag : string
}.

(** [validate.Struct] on a [StressRequest], from the struct tags
    [DurationSeconds: min=1,max=30] and [Workers: min=1].  Fields are
    visited in declaration order; a field reports the first of its tags
    that fails, and every failing field is reported. *)
Definition validateStruct (req : StressRequest) : list FieldError :=
  (if DurationSeconds req <? 1 then [mkFieldError "DurationSeconds" "min"]
   else if 30 <? DurationSeconds req then [mkFieldError "DurationSeconds" "max"]
   else [])
  ++ (if Workers req <? 1 then [mkFieldError "Workers" "min"] else []).

Fixpoint formatValidationError (errors : list FieldError) (maxWorkers : Z)
  : ValidationError :=
  match errors with
  | [] => mkValidationError "unknown" "validation failed"
  | err :: rest =>
      if String.eqb (feField err) "DurationSeconds" then
        mkValidationError "duration" "duration must be between 1s and 30s"
      else if String.eqb (feField err) "Workers" then
        mkValidationError "workers"
          ("workers must be between 1 and " +:+ Itoa maxWorkers)
      else formatValidationError rest maxWorkers
  end.

Section StressParameters.

(** [runtime.NumCPU()] *)
Variable numCPU : Z.
(** [time.ParseDuration]: the duration in nanoseconds, [None] for an
    error. *)
Variable ParseDuration : string -> option Z.
(** [strconv.Atoi]: [None] for an error. *)
Variable Atoi : string -> option Z.

Definition maxWorkers : Z := wrap64 (numCPU * 2).

(** The duration in whole seconds read from the query (default: 2s). *)
Definition parseDurationSeconds (r : Request) : Z :=
  let durationSeconds := durationToSeconds defaultStressDuration in
  let durationStr := queryGet (Query r) "duration" in
  if negb (String.eqb durationStr EmptyString) then
    match ParseDuration durationStr with
    | Some d => durationToSeconds d
    | None => durationSeconds
    end
  else durationSeconds.

(** The worker count read from the query (default: number of cores). *)
Definition parseWorkers (r : Request) : Z :=
  let workers := numCPU in
  let workersStr := queryGet (Query r) "workers" in
  if negb (String.eqb workersStr EmptyString) then
    match Atoi workersStr with
    | Some w => w
    | None => workers
    end
  else workers.

(** [inl req] is the pair [(req, nil)], [inr e] the pair [(nil, e)].  The
    error of [validate.Struct] on a struct is always a
    [validator.ValidationErrors], so the type assertion succeeds and the
    plain [return nil, err] after it is not reached. *)
Definition parseAndValidateStressRequest (r : Request)
  : StressRequest + ValidationError :=
  let req := mkStressRequest (parseDurationSeconds r) (parseWorkers r) in
  match validateStruct req with
  | (_ :: _) as validationErrors =>
      inr (formatValidationError validationErrors maxWorkers)
  | [] =>
      let req :=
        if durationToSeconds maxStressDuration <? DurationSeconds req
        then mkStressRequest (durationToSeconds maxStressDuration) (Workers req)
        else req in
      let req :=
        if maxWorkers <? Workers req
        then mkStressRequest (DurationSeconds req) maxWorkers
        else req in
      inl req
  end.

End StressParameters.

(** ** The library parsers on plain inputs

    [parseAndValidateStressRequest] is stated over any [time.ParseDuration]
    and [strconv.Atoi].  The two functions below are the instances at which
    the examples of this file run. *)

Definition isDigit (c : ascii) : bool :=
  (48 <=? Z.of_N (N_of_ascii c)) && (Z.of_N (N_of_ascii c) <=? 57).

Definition digitVal (c : ascii) : Z := Z.of_N (N_of_ascii c) - 48.

Fixpoint digitsValue (s : string) (acc : Z) : option Z :=
  match s with
  | EmptyString => Some acc
  | String c rest =>
      if isDigit c then digitsValue rest (acc * 10 + digitVal c) else None
  end.

(** [strconv.Atoi]: an optional sign, then at least one decimal digit and
    nothing else; a value outside the range of [int] is an error. *)
Definition strconvAtoi (s : string) : option Z :=
  let '(neg, body) :=
    match s with
    | String "-"%char rest => (true, rest)
    | String "+"%char rest => (false, rest)
    | _ => (false, s)
    end in
  match body with
  | EmptyString => None
  | _ =>
      match digitsValue body 0 with
      | None => None
      | Some v =>
          let n := if neg then - v else v in
          if (int64_min <=? n) && (n <=? int64_max) then Some n else None
      end
  end.

(** The [unitMap] of package time, without the two spellings of the
    microsecond that are not ASCII. *)
Definition unitMap (u : string) : option Z :=
  if String.eqb u "ns" then Some 1
  else if String.eqb u "us" then Some 1000
  else if String.eqb u "ms" then Some 1000000
  else if String.eqb u "s" then Some second
  else if String.eqb u "m" then Some (60 * second)
  else if String.eqb u "h" then Some (3600 * second)
  else None.

(** [leadingInt]: the value of the leading digits and the rest. *)
Fixpoint leadingInt (s : string) (acc : Z) : option (Z * string) :=
  match s with
  | String c rest =>
      if isDigit c then
        if 2 ^ 63 / 10 <? acc then None
        else
          let x := acc * 10 + digitVal c in
          if 2 ^ 63 <? x then None else leadingInt rest x
      else Some (acc, s)
  | EmptyString => Some (acc, s)
  end.

(** The unit: the longest prefix without a digit and without a point. *)
Fixpoint leadingUnit (s : string) : string * string :=
  match s with
  | String c rest =>
      if isDigit c || Ascii.eqb c "."%char then (EmptyString, s)
      else let '(u, s') := leadingUnit rest in (String c u, s')
  | EmptyString => (EmptyString, EmptyString)
  end.

Fixpoint parseDurationLoop (fuel : nat) (s : string) (d : Z) : option Z :=
  match fuel with
  | O => None
  | S fuel' =>
      match s with
      | EmptyString => Some d
      | String c _ =>
          if isDigit c then
            match leadingInt s 0 with
            | None => None
            | Some (v, s1) =>
                let '(u, s2) := leadingUnit s1 in
                match u with
                | EmptyString => None
                | _ =>
                    match unitMap u with
                    | None => None
                    | Some unit_ =>
                        if 2 ^ 63 / unit_ <? v then None
                        else
                          let d' := d + v * unit_ in
                          if 2 ^ 63 <? d' then None
                          else parseDurationLoop fuel' s2 d'
                    end
                end
            end
          else None
      end
  end.

(** [time.ParseDuration] on the durations written without a fractional
    part: an optional sign, then one or more groups of decimal digits and
    a unit.  The library also reads fractions such as [1.5s], through
    floating point; those are not covered here and read as an error. *)
Definition timeParseDuration (s : string) : option Z :=
  let '(neg, body) :=
    match s with
    | String "-"%char rest => (true, rest)
    | String "+"%char rest => (false, rest)
    | _ => (false, s)
    end in
  if String.eqb body "0" then Some 0
  else
    match body with
    | EmptyString => None
    | _ =>
        match parseDurationLoop (String.length body) body 0 with
        | None => None
        | Some d =>
            if neg then Some (- d)
            else if int64_max <? d then None else Some d
        end
    end.

(** ** Telemetry (pkg/logger, pkg/metrics) *)

Inductive Level := DebugLevel | InfoLevel | WarnLevel | ErrorLevel | FatalLevel.

(** The typed fields of a zerolog event: [Str], [Int], [Dur] (in
    nanoseconds), [Err] (the error's message) and [Interface]. *)
Inductive FieldValue :=
| Str (s : string)
| Int (n : Z)
| Dur (d : Z)
| Err (e : string)
| Interface (v : string).

(** An event handed to the logger: [logger.Info().Str(..)...Msg(m)]. *)
Record LogEvent := mkLogEvent {
  evLevel : Level;
  evFields : list (string * FieldValue);
  evMsg : string
}.

Definition levelRank (l : Level) : Z :=
  match l with
  | DebugLevel => 0 | InfoLevel => 1 | WarnLevel => 2
  | ErrorLevel => 3 | FatalLevel => 4
  end.

(** [parseLogLevel], on the value of LOG_LEVEL already trimmed and in
    lower case. *)
Definition parseLogLevel (levelStr : string) : Level :=
  if String.eqb levelStr "debug" then DebugLevel
  else if String.eqb levelStr "info" then InfoLevel
  else if String.eqb levelStr "warn" then WarnLevel
  else if String.eqb levelStr "warning" then WarnLevel
  else if String.eqb levelStr "error" then ErrorLevel
  else InfoLevel.

(** What zerolog writes of the events it is handed, under the global
    level set by [Init]. *)
Definition written (globalLevel : Level) (events : list LogEvent)
  : list LogEvent :=
  List.filter (fun e => levelRank globalLevel <=? levelRank (evLevel e)) events.

(** ** Response values (pkg/response) *)

Module response.

Record Response := mkResponse {
  Status : string;
  Message : string;
  Version : string
}.

Definition New (status message version : string) : Response :=
  mkResponse status message version.

Definition Error (message : string) : Response :=
  mkResponse "error" message EmptyString.

Definition Success (message : string) : Response :=
  mkResponse "success" message EmptyString.

End response.

(** [StressResponse] of the handlers: status, message, duration and
    workers. *)
Inductive StressResponse :=
| mkStressResponse (Status Message Duration : string) (Workers : Z).

(** The values given to [SendJSON] as [data interface{}].  Any other Go
    value is carried by what [json.Marshal] makes of it: its encoding, or
    [None] when it cannot be encoded (a channel, a function, a NaN). *)
Inductive Data :=
| DataResponse (r : response.Response)
| DataStress (r : StressResponse)
| DataOther (encoded : option string).

Definition encodable (d : Data) : bool :=
  match d with
  | DataOther None => false
  | _ => true
  end.

(** What is written to the body: raw bytes, or the line [Encoder.Encode]
    writes for a value (its JSON encoding and a newline). *)
Inductive Chunk :=
| Bytes (s : string)
| JSONLine (d : Data).

Definition chunkEmpty (c : Chunk) : bool :=
  match c with
  | Bytes EmptyString => true
  | _ => false
  end.

(** ** The response writer of net/http

    The state behind an [http.ResponseWriter] of the server: the header
    map handlers mutate, and what has been sent.  [headerCalls] records
    the codes of all explicit [WriteHeader] calls, in order. *)
Record ResponseState := mkResponseState {
  header : gmap string string;
  wroteHeader : bool;
  status : Z;
  sentHeader : gmap string string;
  body : list Chunk;
  informational : list Z;
  headerCalls : list Z
}.

Definition newResponse : ResponseState :=
  mkResponseState ∅ false 0 ∅ [] [] [].

Definition headerSet (key value : string) (rs : ResponseState) : ResponseState :=
  mkResponseState (<[key := value]> (header rs)) (wroteHeader rs) (status rs)
    (sentHeader rs) (body rs) (informational rs) (headerCalls rs).

Definition commitHeader (code : Z) (rs : ResponseState) : ResponseState :=
  mkResponseState (header rs) true code (header rs) (body rs)
    (informational rs) (headerCalls rs).

Definition recordCall (code : Z) (rs : ResponseState) : ResponseState :=
  mkResponseState (header rs) (wroteHeader rs) (status rs) (sentHeader rs)
    (body rs) (informational rs) (headerCalls rs ++ [code]).

Inductive Outcome :=
| Returned
| Panicked (v : string).

(** [WriteHeader] of the server's response: a call after the header was
    written is superfluous and ignored; a code outside 100..999 panics; a
    1xx code other than 101 is sent as an informational header and leaves
    the response open; any other code is committed with a snapshot of the
    header map. *)
Definition responseWriteHeader (code : Z) (rs : ResponseState)
  : Outcome * ResponseState :=
  let rs := recordCall code rs in
  if wroteHeader rs then (Returned, rs)
  else if (code <? 100) || (999 <? code) then
    (Panicked ("invalid WriteHeader code " +:+ Itoa code), rs)
  else if (100 <=? code) && (code <=? 199) && negb (code =? 101) then
    (Returned,
     mkResponseState (header rs) (wroteHeader rs) (status rs) (sentHeader rs)
       (body rs) (informational rs ++ [code]) (headerCalls rs))
  else (Returned, commitHeader code rs).

Definition appendBody (b : Chunk) (rs : ResponseState) : ResponseState :=
  mkResponseState (header rs) (wroteHeader rs) (status rs) (sentHeader rs)
    (body rs ++ [b]) (informational rs) (headerCalls rs).

Definition bodyAllowedForStatus (status : Z) : bool :=
  if (100 <=? status) && (status <=? 199) then false
  else if status =? 204 then false
  else if status =? 304 then false
  else true.

(** [Write] of the server's response: an implicit [WriteHeader(200)] when
    no header was written, then the bytes, unless the status allows no
    body.  The boolean is [err == nil]. *)
Definition responseWrite (b : Chunk) (rs : ResponseState)
  : bool * ResponseState :=
  let rs := if wroteHeader rs then rs else commitHeader 200 rs in
  if chunkEmpty b then (true, rs)
  else if bodyAllowedForStatus (status rs) then (true, appendBody b rs)
  else (false, rs).

(** ** Handlers as programs

    A handler is a Go function over a response writer and a request.  It
    is embedded as the sequence of effects it performs: calls on its
    response writer, on the logger, on the metrics and on the clock, ended
    by a return or by a panic.  The two control structures of the
    middleware are part of the syntax: running a handler behind a
    [responseWriter] wrapper, and running it under a deferred [recover]. *)
Inductive Prog : Type :=
| Return_
| Panic (v : string)
| HeaderSet (key value : string) (k : Prog)
| WriteHeader (code : Z) (k : Prog)
| Write (b : Chunk) (k : bool -> Prog)
| LogMsg (e : LogEvent) (k : Prog)
| TrackRequest (path method : string) (k : Prog)
| ObserveRequestDuration (path method : string) (d : Z) (k : Prog)
| Now (k : Z -> Prog)
| RunMultiCoreStress (duration workers : Z) (k : Prog)
| WithResponseWriter (body : Prog) (k : Z -> Prog)
| DeferRecover (body : Prog) (handler : string -> Prog).

Definition Handler : Type := Request -> Prog.

(** The process and the request in flight: the response being written,
    the [statusCode] cells of the [responseWriter] wrappers around it
    (innermost first), the telemetry sink, and the clock.  [ticks] are the
    amounts by which the monotonic clock will have advanced at its next
    readings. *)
Record World := mkWorld {
  resp : ResponseState;
  wrappers : list Z;
  log : list LogEvent;
  httpRequestsTotal : gmap (string * string) nat;
  httpRequestDuration : list (string * string * Z);
  stressRuns : list (Z * Z);
  clock : Z;
  ticks : list Z
}.

Definition setResp (rs : ResponseState) (w : World) : World :=
  mkWorld rs (wrappers w) (log w) (httpRequestsTotal w)
    (httpRequestDuration w) (stressRuns w) (clock w) (ticks w).

Definition setWrappers (ws : list Z) (w : World) : World :=
  mkWorld (resp w) ws (log w) (httpRequestsTotal w)
    (httpRequestDuration w) (stressRuns w) (clock w) (ticks w).

Definition emit (e : LogEvent) (w : World) : World :=
  mkWorld (resp w) (wrappers w) (log w ++ [e]) (httpRequestsTotal w)
    (httpRequestDuration w) (stressRuns w) (clock w) (ticks w).

Definition counterValue (m : gmap (string * string) nat)
  (path method : string) : nat :=
  default 0%nat (m !! (path, method)).

(** [httpRequestsTotal.WithLabelValues(path, method).Inc()] *)
Definition trackRequest (path method : string) (w : World) : World :=
  mkWorld (resp w) (wrappers w) (log w)
    (<[(path, method) := S (counterValue (httpRequestsTotal w) path method)]>
       (httpRequestsTotal w))
    (httpRequestDuration w) (stressRuns w) (clock w) (ticks w).

(** [httpRequestDuration.WithLabelValues(path, method).Observe(d)]; the
    observations are kept in order, with the duration in nanoseconds
    (the code passes the same duration as a number of seconds). *)
Definition observeRequestDuration (path method : string) (d : Z) (w : World)
  : World :=
  mkWorld (resp w) (wrappers w) (log w) (httpRequestsTotal w)
    (httpRequestDuration w ++ [(path, method, d)]) (stressRuns w)
    (clock w) (ticks w).

(** [time.Now()] *)
Definition readClock (w : World) : Z * World :=
  match ticks w with
  | [] => (clock w, w)
  | t :: ts =>
      (clock w + t,
       mkWorld (resp w) (wrappers w) (log w) (httpRequestsTotal w)
         (httpRequestDuration w) (stressRuns w) (clock w + t) ts)
  end.

(** The call of [runMultiCoreStress] seen from the handler: it blocks
    until the workers are done, which takes the duration when there is a
    worker. *)
Definition stressBlocks (duration workers : Z) (w : World) : World :=
  mkWorld (resp w) (wrappers w) (log w) (httpRequestsTotal w)
    (httpRequestDuration w) (stressRuns w ++ [(duration, workers)])
    (clock w + (if 0 <? workers then Z.max 0 duration else 0)) (ticks w).

(** [WriteHeader] through the wrappers: every [responseWriter] records
    the code, then delegates to the writer it wraps. *)
Definition captureStatus (code : Z) (w : World) : World :=
  setWrappers (map (fun _ => code) (wrappers w)) w.

Fixpoint run (p : Prog) (w : World) : Outcome * World :=
  match p with
  | Return_ => (Returned, w)
  | Panic v => (Panicked v, w)
  | HeaderSet key value k => run k (setResp (headerSet key value (resp w)) w)
  | WriteHeader code k =>
      let w1 := captureStatus code w in
      let '(o, rs) := responseWriteHeader code (resp w1) in
      match o with
      | Returned => run k (setResp rs w1)
      | Panicked v => (Panicked v, setResp rs w1)
      end
  | Write b k =>
      let '(ok, rs) := responseWrite b (resp w) in
      run (k ok) (setResp rs w)
  | LogMsg e k => run k (emit e w)
  | TrackRequest path method k => run k (trackRequest path method w)
  | ObserveRequestDuration path method d k =>
      run k (observeRequestDuration path method d w)
  | Now k => let '(t, w1) := readClock w in run (k t) w1
  | RunMultiCoreStress duration workers k =>
      run k (stressBlocks duration workers w)
  | WithResponseWriter body k =>
      let '(o, w1) := run body (setWrappers (200 :: wrappers w) w) in
      let statusCode := hd 200 (wrappers w1) in
      let w2 := setWrappers (tl (wrappers w1)) w1 in
      match o with
      | Returned => run (k statusCode) w2
      | Panicked v => (Panicked v, w2)
      end
  | DeferRecover body handler =>
      let '(o, w1) := run body w in
      match o with
      | Returned => (Returned, w1)
      | Panicked v => run (handler v) w1
      end
  end.

(** ** Writing responses (net/http, pkg/response) *)

Definition dquote : ascii := Ascii false true false false false true false false.

Definition quoted (s : string) : string :=
  String dquote (s +:+ String dquote EmptyString).

(** The literal [{"status":"error","message":m}]. *)
Definition errorJSON (m : string) : string :=
  "{" +:+ quoted "status" +:+ ":" +:+ quoted "error" +:+ ","
      +:+ quoted "message" +:+ ":" +:+ quoted m +:+ "}".

Definition newline : string := String (Ascii false true false true false false false false) EmptyString.

(** [http.Error]: two headers, the status code, and the message on one
    line. *)
Definition httpError (error : string) (code : Z) (k : Prog) : Prog :=
  HeaderSet "Content-Type" "text/plain; charset=utf-8"
    (HeaderSet "X-Content-Type-Options" "nosniff"
       (WriteHeader code
          (Write (Bytes (error +:+ newline)) (fun _ => k)))).

Definition StatusOK : Z := 200.
Definition StatusBadRequest : Z := 400.
Definition StatusInternalServerError : Z := 500.

(** The encoding step of [SendJSON], with its fallback.  [Encoder.Encode]
    marshals the value first and writes nothing when that fails; the error
    of the write is its error too. *)
Definition encodeOrFail (data : Data) (k : Prog) : Prog :=
  let onError :=
    httpError (errorJSON "Failed to encode response")
      StatusInternalServerError k in
  if encodable data then
    Write (JSONLine data) (fun ok => if ok then k else onError)
  else onError.

(** [response.SendJSON] *)
Definition SendJSON (statusCode : Z) (data : Data) (k : Prog) : Prog :=
  HeaderSet "Content-Type" "application/json"
    (WriteHeader statusCode (encodeOrFail data k)).

(** ** Middleware (internal/middleware) *)

Definition Logging (next : Handler) : Handler := fun r =>
  Now (fun start =>
  WithResponseWriter (next r) (fun statusCode =>
  Now (fun t =>
  let duration := t - start in
  ObserveRequestDuration (Path r) (Method r) duration
    (let level :=
       if (400 <=? statusCode) && (statusCode <? 500) then WarnLevel
       else if 500 <=? statusCode then ErrorLevel
       else InfoLevel in
     LogMsg
       (mkLogEvent level
          [("method", Str (Method r)); ("path", Str (Path r));
           ("status", Int statusCode); ("duration", Dur duration);
           ("remote_addr", Str (RemoteAddr r));
           ("user_agent", Str (UserAgent r))]
          "HTTP request completed")
       Return_)))).

(** The deferred function of [Recovery], run with the recovered value. *)
Definition recovered (r : Request) (err : string) : Prog :=
  LogMsg
    (mkLogEvent ErrorLevel
       [("panic", Interface err); ("path", Str (Path r));
        ("method", Str (Method r))]
       "Recovered from panic")
    (httpError (errorJSON "Internal server error")
       StatusInternalServerError Return_).

Definition Recovery (next : Handler) : Handler := fun r =>
  DeferRecover (next r) (recovered r).

(** ** Handlers (internal/handlers) *)

Definition AppVersion : string := "v1.0.0".

Definition HomeHandler : Handler := fun r =>
  TrackRequest (Path r) (Method r)
    (LogMsg
       (mkLogEvent DebugLevel
          [("path", Str (Path r)); ("method", Str (Method r));
           ("remote_addr", Str (RemoteAddr r))]
          "Processing home request")
       (SendJSON StatusOK
          (DataResponse
             (response.New "success"
                "Welcome to the Resilient GitOps Platform!" AppVersion))
          Return_)).

Definition HealthHandler : Handler := fun r =>
  LogMsg
    (mkLogEvent DebugLevel [("path", Str (Path r))] "Health check requested")
    (WriteHeader StatusOK (Write (Bytes "OK") (fun _ => Return_))).

Section Service.

Variable numCPU : Z.
Variable ParseDuration : string -> option Z.
Variable Atoi : string -> option Z.
(** [time.Duration.String] *)
Variable durationString : Z -> string.
(** [promhttp.Handler()] *)
Variable metricsHandler : Handler.
(** What the router does with a request that matches no route; the
    middleware is not run for it. *)
Variable noMatch : Handler.

Definition StressHandler : Handler := fun r =>
  TrackRequest (Path r) (Method r)
    (match parseAndValidateStressRequest numCPU ParseDuration Atoi r with
     | inr err =>
         LogMsg
           (mkLogEvent WarnLevel
              [("error", Err (Error_ err)); ("path", Str (Path r))]
              "Invalid stress request parameters")
           (SendJSON StatusBadRequest
              (DataResponse (response.Error (Error_ err))) Return_)
     | inl req =>
         let duration := DurationSeconds req * second in
         LogMsg
           (mkLogEvent WarnLevel
              [("path", Str (Path r)); ("remote_addr", Str (RemoteAddr r));
               ("duration", Dur duration); ("workers", Int (Workers req))]
              "Multi-core stress test initiated - CPU spike incoming")
           (Now (fun start =>
            RunMultiCoreStress duration (Workers req)
              (Now (fun t =>
               let elapsed := t - start in
               LogMsg
                 (mkLogEvent InfoLevel
                    [("duration", Dur elapsed);
                     ("workers", Int (Workers req))]
                    "Stress test completed")
                 (SendJSON StatusOK
                    (DataStress
                       (mkStressResponse "stress_complete"
                          "CPU load simulation finished"
                          (durationString elapsed) (Workers req)))
                    Return_)))))
     end).

(** The routes registered by [setupRouter], all for the method GET. *)
Definition route (r : Request) : option Handler :=
  if negb (String.eqb (Method r) "GET") then None
  else if String.eqb (Path r) "/" then Some HomeHandler
  else if String.eqb (Path r) "/health" then Some HealthHandler
  else if String.eqb (Path r) "/stress" then Some StressHandler
  else if String.eqb (Path r) "/metrics" then Some metricsHandler
  else None.

(** [setupRouter]: [Recovery] is registered first and is outermost,
    [Logging] is around the route's handler. *)
Definition setupRouter : Handler := fun r =>
  match route r with
  | Some h => Recovery (Logging h) r
  | None => noMatch r
  end.

End Service.

(** ** The server loop

    Each request is served with a response of its own; the telemetry and
    the clock go on from one request to the next.  A panic that leaves the
    handler ends that request only: the server goes on with the next. *)
Definition serveRequest (router : Handler) (r : Request) (w : World)
  : Outcome * World :=
  run (router r) (setWrappers [] (setResp newResponse w)).

Fixpoint serve (router : Handler) (reqs : list Request) (w : World)
  : list (Outcome * ResponseState) * World :=
  match reqs with
  | [] => ([], w)
  | r :: rest =>
      let '(o, w1) := serveRequest router r w in
      let '(results, w2) := serve router rest w1 in
      ((o, resp w1) :: results, w2)
  end.

Definition initialWorld (ticks : list Z) : World :=
  mkWorld newResponse [] [] ∅ [] [] 0 ticks.

(** ** The load generator ([runMultiCoreStress], [stressWorker])

    The goroutines of one call and the [sync.WaitGroup] that joins them,
    as a transition system driven by a schedule: at each step the clock
    advances, or the calling goroutine takes its next step, or one of the
    workers takes its next step.  A worker owns its [start] and nothing
    else; the counter of the wait group is the only state workers and the
    caller share. *)

(** Where a worker stands in [stressWorker]: before [start := time.Now()],
    at the test of the loop, after the loop with the reading of
    [time.Since(start)] that ended it, and after its deferred
    [wg.Done()]. *)
Inductive WorkerState :=
| Spawned
| Looping (start : Z)
| Leaving (start leftAt : Z)
| Finished (start leftAt : Z).

(** Where the caller stands in [runMultiCoreStress]: at the head of the
    loop with index [i], between [wg.Add(1)] and the [go] statement, in
    [wg.Wait()], and returned. *)
Inductive MainState :=
| Launching (i : Z)
| Spawning (i : Z)
| Waiting
| Joined.

Record Stress := mkStress {
  now : Z;
  main : MainState;
  wg : Z;
  pool : list WorkerState
}.

Inductive Event :=
| Tick (delta : Z)
| MainStep
| WorkerStep (workerID : nat).

(** One step of the worker [workerID]. *)
Definition stressWorker (duration : Z) (workerID : nat) (st : Stress)
  : option Stress :=
  match pool st !! workerID with
  | Some Spawned =>
      Some (mkStress (now st) (main st) (wg st)
              (<[workerID := Looping (now st)]> (pool st)))
  | Some (Looping start) =>
      if now st - start <? duration then Some st
      else Some (mkStress (now st) (main st) (wg st)
                   (<[workerID := Leaving start (now st)]> (pool st)))
  | Some (Leaving start leftAt) =>
      Some (mkStress (now st) (main st) (wg st - 1)
              (<[workerID := Finished start leftAt]> (pool st)))
  | Some (Finished _ _) => None
  | None => None
  end.

(** One step of the caller.  [wg.Wait()] is enabled when the counter is
    zero. *)
Definition runMultiCoreStress (workers : Z) (st : Stress) : option Stress :=
  match main st with
  | Launching i =>
      if i <? workers
      then Some (mkStress (now st) (Spawning i) (wg st + 1) (pool st))
      else Some (mkStress (now st) Waiting (wg st) (pool st))
  | Spawning i =>
      Some (mkStress (now st) (Launching (i + 1)) (wg st) (pool st ++ [Spawned]))
  | Waiting =>
      if wg st =? 0 then Some (mkStress (now st) Joined (wg st) (pool st))
      else None
  | Joined => None
  end.

(** The monotonic clock only moves forward. *)
Definition stressStep (duration workers : Z) (e : Event) (st : Stress)
  : option Stress :=
  match e with
  | Tick delta =>
      if 0 <=? delta
      then Some (mkStress (now st + delta) (main st) (wg st) (pool st))
      else None
  | MainStep => runMultiCoreStress workers st
  | WorkerStep workerID => stressWorker duration workerID st
  end.

Fixpoint stressExec (duration workers : Z) (schedule : list Event)
  (st : Stress) : option Stress :=
  match schedule with
  | [] => Some st
  | e :: rest =>
      match stressStep duration workers e st with
      | Some st' => stressExec duration workers rest st'
      | None => None
      end
  end.

(** The state at the call, at clock reading [t0]. *)
Definition stressInit (t0 : Z) : Stress := mkStress t0 (Launching 0) 0 [].

Definition stressReachable (duration workers t0 : Z) (st : Stress) : Prop :=
  exists schedule, stressExec duration workers schedule (stressInit t0) = Some st.

(** The workers that have not called [wg.Done()] yet. *)
Definition pendingOf (ws : WorkerState) : Z :=
  match ws with
  | Finished _ _ => 0
  | _ => 1
  end.

Fixpoint pending (pool : list WorkerState) : Z :=
  match pool with
  | [] => 0
  | ws :: rest => pendingOf ws + pending rest
  end.

(** What holds of a worker at clock reading [t]: its start was read
    during the call, and it left its loop at a reading at which its own
    elapsed time had reached the duration. *)
Definition workerOk (duration t0 t : Z) (ws : WorkerState) : Prop :=
  match ws with
  | Spawned => True
  | Looping start => t0 <= start <= t
  | Leaving start leftAt | Finished start leftAt =>
      t0 <= start /\ duration <= leftAt - start /\ leftAt <= t
  end.

Definition finishedAfter (duration t0 t : Z) (ws : WorkerState) : Prop :=
  exists start leftAt,
    ws = Finished start leftAt /\
    t0 <= start /\ duration <= leftAt - start /\ leftAt <= t.

Definition stressInv (duration workers t0 : Z) (st : Stress) : Prop :=
  t0 <= now st /\
  Forall (workerOk duration t0 (now st)) (pool st) /\
  match main st with
  | Launching i =>
      0 <= i <= Z.max workers 0 /\ Z.of_nat (length (pool st)) = i /\
      wg st = pending (pool st)
  | Spawning i =>
      0 <= i < workers /\ Z.of_nat (length (pool st)) = i /\
      wg st = pending (pool st) + 1
  | Waiting =>
      Z.of_nat (length (pool st)) = Z.max workers 0 /\
      wg st = pending (pool st)
  | Joined =>
      Z.of_nat (length (pool st)) = Z.max workers 0 /\
      wg st = 0 /\ pending (pool st) = 0
  end.

(** A schedule for two workers and three seconds: the caller launches
    both and waits, each worker reads its start, the clock passes the
    duration, the workers leave and the caller returns. *)
Definition sampleSchedule : list Event :=
  [MainStep; MainStep; WorkerStep 0; Tick 1; MainStep; MainStep; MainStep;
   WorkerStep 1; WorkerStep 0; Tick (3 * second); WorkerStep 0; WorkerStep 1;
   WorkerStep 1; Tick 4; WorkerStep 0; MainStep].

(** ** Vocabulary of the properties *)

(** The two validation failures [formatValidationError] can name. *)
Definition durationError : ValidationError :=
  mkValidationError "duration" "duration must be between 1s and 30s".

Definition workersError (maxWorkers : Z) : ValidationError :=
  mkValidationError "workers"
    ("workers must be between 1 and " +:+ Itoa maxWorkers).

(** The level [Logging] chooses for a status code. *)
Definition statusLevel (statusCode : Z) : Level :=
  if (400 <=? statusCode) && (statusCode <? 500) then WarnLevel
  else if 500 <=? statusCode then ErrorLevel
  else InfoLevel.

(** The event [Logging] emits for a request. *)
Definition requestEvent (r : Request) (statusCode duration : Z) : LogEvent :=
  mkLogEvent (statusLevel statusCode)
    [("method", Str (Method r)); ("path", Str (Path r));
     ("status", Int statusCode); ("duration", Dur duration);
     ("remote_addr", Str (RemoteAddr r)); ("user_agent", Str (UserAgent r))]
    "HTTP request completed".

(** The event [Recovery] emits for a recovered panic. *)
Definition panicEvent (r : Request) (v : string) : LogEvent :=
  mkLogEvent ErrorLevel
    [("panic", Interface v); ("path", Str (Path r)); ("method", Str (Method r))]
    "Recovered from panic".

(** The handler as [Logging] runs it: after the first reading of the
    clock, behind a fresh wrapper whose cell holds 200. *)
Definition handlerRun (next : Handler) (r : Request) (w : World)
  : Outcome * World :=
  let w0 := snd (readClock w) in
  run (next r) (setWrappers (200 :: wrappers w0) w0).

(** The codes of the [WriteHeader] calls made during that run. *)
Definition handlerWrites (next : Handler) (r : Request) (w : World) : list Z :=
  skipn (length (headerCalls (resp w)))
    (headerCalls (resp (snd (handlerRun next r w)))).

(** The body [Recovery] and [SendJSON] fall back to. *)
Definition errorLine (m : string) : Chunk := Bytes (errorJSON m +:+ newline).

(** Sample inputs of the examples. *)
Definition getRequest (path : string) (query : list (string * string)) : Request :=
  mkRequest "GET" path query "10.0.0.7:51324" "k6/0.49".

(** A handler that fails after it has set nothing. *)
Definition panickingHandler : Handler := fun _ => Panic "index out of range".

(** A handler that writes two status codes. *)
Definition twoWritesHandler : Handler := fun _ =>
  WriteHeader 200 (WriteHeader 500 Return_).

(** The count of nanoseconds, in the place of [time.Duration.String] in
    the examples. *)
Definition nanoseconds (d : Z) : string := Itoa d +:+ "ns".

(** The service on a host of four cores. *)
Definition router4 : Handler :=
  setupRouter 4 timeParseDuration strconvAtoi nanoseconds
    (fun _ => Return_) (fun _ => Return_).

Definition parse4 : Request -> StressRequest + ValidationError :=
  parseAndValidateStressRequest 4 timeParseDuration strconvAtoi.

(** The failure [formatValidationError] falls back to. *)
Definition unknownError : ValidationError :=
  mkValidationError "unknown" "validation failed".

(** The fields [formatValidationError] knows. *)
Definition knownField (e : FieldError) : bool :=
  String.eqb (feField e) "DurationSeconds" || String.eqb (feField e) "Workers".

(** The state in which the pipeline of the router starts the handler of a
    request: a response not begun, one wrapper around it, the clock read
    once by [Logging]. *)
Definition handlerInput (w : World) : World :=
  let w0 := snd (readClock (setWrappers [] (setResp newResponse w))) in
  setWrappers (200 :: wrappers w0) w0.

(** The events of [StressHandler]. *)
Definition invalidStressEvent (r : Request) (err : ValidationError) : LogEvent :=
  mkLogEvent WarnLevel
    [("error", Err (Error_ err)); ("path", Str (Path r))]
    "Invalid stress request parameters".

Definition stressInitiatedEvent (r : Request) (req : StressRequest) : LogEvent :=
  mkLogEvent WarnLevel
    [("path", Str (Path r)); ("remote_addr", Str (RemoteAddr r));
     ("duration", Dur (DurationSeconds req * second));
     ("workers", Int (Workers req))]
    "Multi-core stress test initiated - CPU spike incoming".

Definition stressCompletedEvent (req : StressRequest) (elapsed : Z) : LogEvent :=
  mkLogEvent InfoLevel
    [("duration", Dur elapsed); ("workers", Int (Workers req))]
    "Stress test completed".

(** The event of [HomeHandler]. *)
Definition homeEvent (r : Request) : LogEvent :=
  mkLogEvent DebugLevel
    [("path", Str (Path r)); ("method", Str (Method r));
     ("remote_addr", Str (RemoteAddr r))]
    "Processing home request".

(** The counters after one more request under the labels. *)
Definition counted (path method : string) (m : gmap (string * string) nat)
  : gmap (string * string) nat :=
  <[(path, method) := S (counterValue m path method)]> m.

(** The response [SendJSON] leaves for a value it could encode, on a
    response not begun. *)
Definition jsonResponse (statusCode : Z) (data : Data) : ResponseState :=
  appendBody (JSONLine data)
    (commitHeader statusCode
       (recordCall statusCode
          (headerSet "Content-Type" "application/json" newResponse))).

(** A handler that fails after it has begun its response. *)
Definition lateFailingHandler : Handler := fun _ =>
  WriteHeader StatusOK (Write (Bytes "partial") (fun _ => Panic "late failure")).

(** A handler that sends a value that cannot be encoded. *)
Definition unencodableHandler (statusCode : Z) : Handler := fun _ =>
  SendJSON statusCode (DataOther None) Return_.

(** ** Configuration (cmd/main.go) *)

(** [os.Getenv]: the value of the variable, the empty string when it is
    not set. *)
Definition Getenv (env : gmap string string) (key : string) : string :=
  default EmptyString (env !! key).

Definition getPort (env : gmap string string) : string :=
  let port := Getenv env "PORT" in
  if String.eqb port EmptyString then "8080" else port.

(** The address [startServer] listens on. *)
Definition listenAddr (env : gmap string string) : string :=
  ":" +:+ getPort env.

(** ** Schedules that complete the load generator *)

(** The steps that take one worker from where it stands to its
    [wg.Done()]: read the start, let the duration pass, leave the loop,
    finish. *)
Definition drainWorker (duration : Z) (ws : WorkerState) (k : nat) : list Event :=
  match ws with
  | Spawned => [WorkerStep k; Tick (Z.max 0 duration); WorkerStep k; WorkerStep k]
  | Looping _ => [Tick (Z.max 0 duration); WorkerStep k; WorkerStep k]
  | Leaving _ _ => [WorkerStep k]
  | Finished _ _ => []
  end.

(** The same for the workers of a pool, one after the other, the first of
    them having the identifier [k]. *)
Fixpoint drainFrom (duration : Z) (k : nat) (pool : list WorkerState)
  : list Event :=
  match pool with
  | [] => []
  | ws :: rest => drainWorker duration ws k ++ drainFrom duration (S k) rest
  end.

(** The steps of the caller that launch [m] more workers and enter
    [wg.Wait()]. *)
Fixpoint launchSteps (m : nat) : list Event :=
  match m with
  | O => [MainStep]
  | S m' => MainStep :: MainStep :: launchSteps m'
  end.

Definition isFinished (ws : WorkerState) : Prop :=
  match ws with
  | Finished _ _ => True
  | _ => False
  end.

(** Clocks that only move forward: the readings to come are not below
    the present one. *)
Definition forwardTicks (w : World) : Prop := Forall (fun t => 0 <= t) (ticks w).

(** The requests for which [setupRouter] has a handler of this
    repository. *)
Definition routed (r : Request) : Prop :=
  Method r = "GET" /\ (Path r = "/" \/ Path r = "/health" \/ Path r = "/stress").

(** The bounds of a stress run: one to thirty seconds, one to twice the
    number of cores workers. *)
Definition boundedRun (numCPU : Z) (run : Z * Z) : Prop :=
  second <= fst run <= 30 * second /\ 1 <= snd run <= 2 * numCPU.

(** * Properties *)

(** ** Machine integers *)

Lemma wrap64_small z : int64_min <= z <= int64_max -> wrap64 z = z.
Proof.
  unfold wrap64, int64_min, int64_max. intros H.
  rewrite Z.mod_small; lia.
Qed.


(** ** Stress parameters *)

Section StressParametersFacts.

Variable numCPU : Z.
Variable ParseDuration : string -> option Z.
Variable Atoi : string -> option Z.

Local Abbreviation parse := (parseAndValidateStressRequest numCPU ParseDuration Atoi).
Local Abbreviation seconds := (parseDurationSeconds ParseDuration).
Local Abbreviation workers := (parseWorkers numCPU Atoi).

Lemma maxWorkers_double : 1 <= numCPU < 2 ^ 62 -> maxWorkers numCPU = 2 * numCPU.
Proof.
  intros H. unfold maxWorkers. rewrite wrap64_small; [lia|].
  unfold int64_min, int64_max. lia.
Qed.

(** The three outcomes of validation, by the two values read. *)
Lemma parse_duration_out_of_range r :
  seconds r < 1 \/ 30 < seconds r -> parse r = inr durationError.
Proof.
  intros H. unfold parseAndValidateStressRequest, validateStruct.
  cbn [DurationSeconds Workers].
  destruct (Z.ltb_spec (seconds r) 1) as [H1|H1]; [reflexivity|].
  destruct (Z.ltb_spec 30 (seconds r)) as [H2|H2]; [reflexivity|lia].
Qed.

Lemma parse_workers_out_of_range r :
  1 <= seconds r <= 30 -> workers r < 1 ->
  parse r = inr (workersError (maxWorkers numCPU)).
Proof.
  intros Hd Hw. unfold parseAndValidateStressRequest, validateStruct.
  cbn [DurationSeconds Workers].
  destruct (Z.ltb_spec (seconds r) 1) as [H1|H1]; [lia|].
  destruct (Z.ltb_spec 30 (seconds r)) as [H2|H2]; [lia|].
  destruct (Z.ltb_spec (workers r) 1) as [H3|H3]; [reflexivity|lia].
Qed.

Lemma parse_in_range r :
  1 <= seconds r <= 30 -> 1 <= workers r ->
  parse r =
  inl (mkStressRequest (seconds r) (Z.min (workers r) (maxWorkers numCPU))).
Proof.
  intros Hd Hw. unfold parseAndValidateStressRequest, validateStruct.
  cbn [DurationSeconds Workers].
  destruct (Z.ltb_spec (seconds r) 1) as [H1|H1]; [lia|].
  destruct (Z.ltb_spec 30 (seconds r)) as [H2|H2]; [lia|].
  destruct (Z.ltb_spec (workers r) 1) as [H3|H3]; [lia|].
  cbn [app].
  replace (durationToSeconds maxStressDuration) with 30 by reflexivity.
  destruct (Z.ltb_spec 30 (seconds r)) as [H4|H4]; [lia|].
  cbn [DurationSeconds Workers].
  destruct (Z.ltb_spec (maxWorkers numCPU) (workers r)) as [H5|H5];
    cbn [DurationSeconds Workers]; f_equal; f_equal; lia.
Qed.

(** The clamp of the duration is never taken: a request that passes
    validation has its duration within the bounds already. *)
Lemma parse_accepts_only_in_range r req :
  parse r = inl req ->
  1 <= seconds r <= 30 /\ 1 <= workers r /\ DurationSeconds req = seconds r.
Proof.
  intros H.
  destruct (Z.lt_ge_cases (seconds r) 1) as [H1|H1].
  { rewrite parse_duration_out_of_range in H by lia. discriminate. }
  destruct (Z.lt_ge_cases 30 (seconds r)) as [H2|H2].
  { rewrite parse_duration_out_of_range in H by lia. discriminate. }
  destruct (Z.lt_ge_cases (workers r) 1) as [H3|H3].
  { rewrite parse_workers_out_of_range in H by lia. discriminate. }
  rewrite parse_in_range in H by lia. inversion H; subst. cbn. lia.
Qed.

Lemma seconds_parsed r d :
  queryGet (Query r) "duration" <> EmptyString ->
  ParseDuration (queryGet (Query r) "duration") = Some d ->
  seconds r = durationToSeconds d.
Proof.
  intros Hne Hp. unfold parseDurationSeconds.
  destruct (String.eqb_spec (queryGet (Query r) "duration") EmptyString);
    [contradiction|]. cbn [negb]. now rewrite Hp.
Qed.

Lemma seconds_default r :
  queryGet (Query r) "duration" = EmptyString \/
  ParseDuration (queryGet (Query r) "duration") = None ->
  seconds r = 2.
Proof.
  intros H. unfold parseDurationSeconds.
  destruct (String.eqb_spec (queryGet (Query r) "duration") EmptyString);
    [reflexivity|]. cbn [negb].
  destruct H as [H|H]; [contradiction|]. now rewrite H.
Qed.

Lemma workers_parsed r n :
  queryGet (Query r) "workers" <> EmptyString ->
  Atoi (queryGet (Query r) "workers") = Some n ->
  workers r = n.
Proof.
  intros Hne Hp. unfold parseWorkers.
  destruct (String.eqb_spec (queryGet (Query r) "workers") EmptyString);
    [contradiction|]. cbn [negb]. now rewrite Hp.
Qed.

Lemma workers_default r :
  queryGet (Query r) "workers" = EmptyString \/
  Atoi (queryGet (Query r) "workers") = None ->
  workers r = numCPU.
Proof.
  intros H. unfold parseWorkers.
  destruct (String.eqb_spec (queryGet (Query r) "workers") EmptyString);
    [reflexivity|]. cbn [negb].
  destruct H as [H|H]; [contradiction|]. now rewrite H.
Qed.

End StressParametersFacts.


(** ** The interpreter: status codes seen by the wrappers *)

Lemma last_cons_default {A} (a : A) (l : list A) (d : A) :
  List.last (a :: l) d = List.last l a.
Proof.
  revert a d. induction l as [|b l IH]; intros a d; [reflexivity|].
  change (List.last (a :: b :: l) d) with (List.last (b :: l) d).
  rewrite !IH. reflexivity.
Qed.

Lemma last_app_default {A} (l1 l2 : list A) (d : A) :
  List.last (l1 ++ l2) d = List.last l2 (List.last l1 d).
Proof.
  revert d. induction l1 as [|a l1 IH]; intros d; [reflexivity|].
  change ((a :: l1) ++ l2) with (a :: (l1 ++ l2)).
  rewrite !last_cons_default. apply IH.
Qed.

Lemma responseWriteHeader_calls code rs :
  headerCalls (snd (responseWriteHeader code rs)) = headerCalls rs ++ [code].
Proof.
  unfold responseWriteHeader.
  repeat match goal with |- context [if ?b then _ else _] => destruct b end;
    reflexivity.
Qed.

Lemma responseWrite_calls b rs :
  headerCalls (snd (responseWrite b rs)) = headerCalls rs.
Proof.
  unfold responseWrite.
  repeat match goal with |- context [if ?b then _ else _] => destruct b end;
    reflexivity.
Qed.

Lemma readClock_frame w :
  resp (snd (readClock w)) = resp w /\
  wrappers (snd (readClock w)) = wrappers w /\
  log (snd (readClock w)) = log w /\
  httpRequestsTotal (snd (readClock w)) = httpRequestsTotal w /\
  httpRequestDuration (snd (readClock w)) = httpRequestDuration w /\
  stressRuns (snd (readClock w)) = stressRuns w.
Proof. unfold readClock. destruct (ticks w); cbn; repeat split; reflexivity. Qed.

(** Every run appends its explicit [WriteHeader] calls to [headerCalls],
    and leaves in each wrapper cell the last of them (the cell's old
    content when there is none). *)
Lemma run_calls p :
  forall w, exists cs,
    headerCalls (resp (snd (run p w))) = headerCalls (resp w) ++ cs /\
    wrappers (snd (run p w)) = map (fun c => List.last cs c) (wrappers w).
Proof.
  induction p as
    [ | v | key value k IH | code k IH | b k IH | e k IH | pa me k IH
    | pa me d k IH | k IH | du wo k IH | body IHb k IH | body IHb h IH ];
    intros w; cbn [run].
  - exists []. cbn. rewrite app_nil_r, map_id. auto.
  - exists []. cbn. rewrite app_nil_r, map_id. auto.
  - destruct (IH (setResp (headerSet key value (resp w)) w)) as (cs & H1 & H2).
    exists cs. auto.
  - pose proof (responseWriteHeader_calls code (resp (captureStatus code w))) as Hc.
    destruct (responseWriteHeader code (resp (captureStatus code w))) as [o rs].
    cbn [snd] in Hc. cbn [captureStatus setWrappers resp] in Hc.
    destruct o as [|v].
    + destruct (IH (setResp rs (captureStatus code w))) as (cs & H1 & H2).
      exists (code :: cs). rewrite H1, H2. cbn [setResp resp wrappers captureStatus setWrappers].
      rewrite Hc, <- app_assoc. split; [reflexivity|].
      rewrite map_map. apply map_ext. intros c. now rewrite last_cons_default.
    + exists [code]. cbn [snd setResp resp wrappers captureStatus setWrappers].
      split; [exact Hc|]. apply map_ext. reflexivity.
  - pose proof (responseWrite_calls b (resp w)) as Hc.
    destruct (responseWrite b (resp w)) as [ok rs]. cbn [snd] in Hc.
    destruct (IH ok (setResp rs w)) as (cs & H1 & H2).
    exists cs. rewrite H1, H2. cbn [setResp resp wrappers]. now rewrite Hc.
  - destruct (IH (emit e w)) as (cs & H1 & H2). exists cs. auto.
  - destruct (IH (trackRequest pa me w)) as (cs & H1 & H2). exists cs. auto.
  - destruct (IH (observeRequestDuration pa me d w)) as (cs & H1 & H2).
    exists cs. auto.
  - destruct (readClock_frame w) as (Hr & Hw & _).
    destruct (readClock w) as [t w1]. cbn [snd] in Hr, Hw.
    destruct (IH t w1) as (cs & H1 & H2). exists cs. now rewrite H1, H2, Hr, Hw.
  - destruct (IH (stressBlocks du wo w)) as (cs & H1 & H2). exists cs. auto.
  - destruct (IHb (setWrappers (200 :: wrappers w) w)) as (cs1 & H1 & H2).
    destruct (run body (setWrappers (200 :: wrappers w) w)) as [o w1].
    cbn [snd setWrappers resp wrappers] in H1, H2.
    destruct o as [|v].
    + destruct (IH (hd 200 (wrappers w1)) (setWrappers (tl (wrappers w1)) w1))
        as (cs2 & H3 & H4).
      exists (cs1 ++ cs2). rewrite H3, H4. cbn [setWrappers resp wrappers].
      rewrite H1, H2, app_assoc. split; [reflexivity|].
      cbn [map tl]. rewrite map_map. apply map_ext. intros c.
      now rewrite last_app_default.
    + exists cs1. cbn [snd setWrappers resp wrappers]. rewrite H2. auto.
  - destruct (IHb w) as (cs1 & H1 & H2).
    destruct (run body w) as [o w1]. cbn [snd] in H1, H2.
    destruct o as [|v].
    + exists cs1. auto.
    + destruct (IH v w1) as (cs2 & H3 & H4).
      exists (cs1 ++ cs2). rewrite H3, H4, H1, H2, app_assoc.
      split; [reflexivity|]. rewrite map_map. apply map_ext. intros c.
      now rewrite last_app_default.
Qed.

(** ** The middleware *)

Lemma handlerRun_writes next r w :
  exists cs,
    handlerWrites next r w = cs /\
    headerCalls (resp (snd (handlerRun next r w))) = headerCalls (resp w) ++ cs /\
    hd 200 (wrappers (snd (handlerRun next r w))) = List.last cs 200.
Proof.
  unfold handlerWrites, handlerRun.
  destruct (readClock_frame w) as (Hr & _).
  destruct (run_calls (next r)
              (setWrappers (200 :: wrappers (snd (readClock w))) (snd (readClock w))))
    as (cs & H1 & H2).
  exists cs. rewrite H1, H2. cbn [setWrappers resp wrappers map hd].
  rewrite Hr. repeat split.
  induction (headerCalls (resp w)) as [|c l IH]; [reflexivity|exact IH].
Qed.

Lemma run_Logging_returned next r w w1 :
  handlerRun next r w = (Returned, w1) ->
  let start := fst (readClock w) in
  let w2 := setWrappers (tl (wrappers w1)) w1 in
  let duration := fst (readClock w2) - start in
  run (Logging next r) w =
  (Returned,
   emit (requestEvent r (List.last (handlerWrites next r w) 200) duration)
     (observeRequestDuration (Path r) (Method r) duration (snd (readClock w2)))).
Proof.
  intros H. destruct (handlerRun_writes next r w) as (cs & Hcs & _ & Hhd).
  rewrite Hcs. rewrite H in Hhd. cbn [snd] in Hhd.
  unfold handlerRun in H. unfold Logging. cbn [run].
  destruct (readClock w) as [start w0]. cbn [fst snd] in *.
  rewrite H. rewrite Hhd.
  destruct (readClock (setWrappers (tl (wrappers w1)) w1)) as [t w3].
  reflexivity.
Qed.

Lemma run_Logging_panicked next r w v w1 :
  handlerRun next r w = (Panicked v, w1) ->
  run (Logging next r) w = (Panicked v, setWrappers (tl (wrappers w1)) w1).
Proof.
  intros H. unfold handlerRun in H. unfold Logging. cbn [run].
  destruct (readClock w) as [start w0]. cbn [snd] in H. now rewrite H.
Qed.

(** The response writer, case by case. *)
Lemma responseWriteHeader_fresh code rs :
  wroteHeader rs = false -> 200 <= code <= 999 ->
  responseWriteHeader code rs = (Returned, commitHeader code (recordCall code rs)).
Proof.
  intros Hw Hc. unfold responseWriteHeader. cbn [recordCall wroteHeader].
  rewrite Hw.
  destruct (Z.ltb_spec code 100); [lia|].
  destruct (Z.ltb_spec 999 code); [lia|].
  destruct (Z.leb_spec 100 code); [|lia].
  destruct (Z.leb_spec code 199); [lia|]. reflexivity.
Qed.

Lemma responseWriteHeader_superfluous code rs :
  wroteHeader rs = true ->
  responseWriteHeader code rs = (Returned, recordCall code rs).
Proof.
  intros Hw. unfold responseWriteHeader. cbn [recordCall wroteHeader].
  now rewrite Hw.
Qed.

Lemma responseWrite_committed b rs :
  wroteHeader rs = true -> chunkEmpty b = false ->
  responseWrite b rs =
  if bodyAllowedForStatus (status rs) then (true, appendBody b rs)
  else (false, rs).
Proof. intros Hw Hb. unfold responseWrite. now rewrite Hw, Hb. Qed.

Lemma errorLine_not_empty m : chunkEmpty (errorLine m) = false.
Proof. reflexivity. Qed.

(** The deferred function of [Recovery] returns: [http.Error] is called
    with a valid code.  It writes the 500 response when none was begun. *)
Lemma run_recovered r v w :
  exists w',
    run (recovered r v) w = (Returned, w') /\
    log w' = log w ++ [panicEvent r v] /\
    httpRequestDuration w' = httpRequestDuration w /\
    httpRequestsTotal w' = httpRequestsTotal w /\
    stressRuns w' = stressRuns w /\
    (wroteHeader (resp w) = false ->
     wroteHeader (resp w') = true /\
     status (resp w') = 500 /\
     body (resp w') = body (resp w) ++ [errorLine "Internal server error"]).
Proof.
  unfold recovered, httpError. cbn [run].
  change (Bytes (errorJSON "Internal server error" +:+ newline))
    with (errorLine "Internal server error").
  cbn [captureStatus setWrappers setResp emit resp].
  set (rs := headerSet _ _ (headerSet _ _ (resp w))).
  assert (Hrs : wroteHeader rs = wroteHeader (resp w)) by reflexivity.
  assert (Hbody : body rs = body (resp w)) by reflexivity.
  destruct (wroteHeader (resp w)) eqn:Hw.
  - rewrite responseWriteHeader_superfluous by exact Hrs. cbn [run setResp resp].
    rewrite responseWrite_committed by (reflexivity || exact Hrs).
    destruct (bodyAllowedForStatus _); cbn [run]; eexists;
      (split; [reflexivity|]); cbn; repeat split; discriminate.
  - rewrite responseWriteHeader_fresh by (exact Hrs || (unfold StatusInternalServerError; lia)).
    cbn [run setResp resp].
    rewrite responseWrite_committed by reflexivity.
    change (bodyAllowedForStatus _) with true. cbn [run]. eexists.
    split; [reflexivity|]. cbn. repeat split.
Qed.

Lemma Recovery_returns next r w : fst (run (Recovery next r) w) = Returned.
Proof.
  unfold Recovery. cbn [run]. destruct (run (next r) w) as [[|v] w1];
    [reflexivity|].
  destruct (run_recovered r v w1) as (w' & H & _). now rewrite H.
Qed.

Lemma serve_length router reqs w :
  length (fst (serve router reqs w)) = length reqs.
Proof.
  revert w. induction reqs as [|r rest IH]; intros w; [reflexivity|].
  cbn [serve]. destruct (serveRequest router r w) as [o w1].
  specialize (IH w1). destruct (serve router rest w1) as [results w2].
  cbn [fst length] in *. now rewrite IH.
Qed.

Lemma serve_Recovery_returns next reqs w :
  Forall (fun res => fst res = Returned) (fst (serve (Recovery next) reqs w)).
Proof.
  revert w. induction reqs as [|r rest IH]; intros w; [constructor|].
  cbn [serve].
  pose proof (Recovery_returns next r (setWrappers [] (setResp newResponse w))) as Hr.
  unfold serveRequest. destruct (run (Recovery next r) _) as [o w1].
  specialize (IH w1). destruct (serve (Recovery next) rest w1) as [results w2].
  cbn [fst] in *. constructor; [exact Hr|exact IH].
Qed.

(** C3: a panic of the inner chain or of the handler stops at [Recovery]:
    the call returns, one error-level event carries the recovered value,
    the path and the method, a 500 response with the fixed JSON error body
    is written when no response was begun, and nothing is raised again, so
    the server serves every request it is given. *)
Theorem Recovery_contains_panics (next : Handler) (r : Request) (w : World)
    (v : string) (w1 : World) :
  run (next r) w = (Panicked v, w1) ->
  exists w',
    run (Recovery next r) w = (Returned, w') /\
    log w' = log w1 ++ [panicEvent r v] /\
    evLevel (panicEvent r v) = ErrorLevel /\
    (wroteHeader (resp w1) = false ->
     wroteHeader (resp w') = true /\
     status (resp w') = StatusInternalServerError /\
     body (resp w') = body (resp w1) ++ [errorLine "Internal server error"]) /\
    (forall r0 w0, fst (run (Recovery next r0) w0) = Returned) /\
    (forall reqs w0,
       length (fst (serve (Recovery next) reqs w0)) = length reqs /\
       Forall (fun res => fst res = Returned)
         (fst (serve (Recovery next) reqs w0))).
Proof.
  intros H. destruct (run_recovered r v w1) as (w' & Hrun & Hlog & _ & _ & _ & Hresp).
  exists w'. unfold Recovery at 1. cbn [run]. rewrite H.
  repeat split; try assumption; try (apply Hresp; assumption).
  - intros r0 w0. apply Recovery_returns.
  - apply serve_length.
  - apply serve_Recovery_returns.
Qed.

Lemma Recovery_contains_panics_witness :
  exists w',
    run (Recovery (Logging panickingHandler) (getRequest "/" [])) (initialWorld [5; 7])
    = (Returned, w') /\
    log w' = [panicEvent (getRequest "/" []) "index out of range"] /\
    status (resp w') = 500 /\
    body (resp w') = [errorLine "Internal server error"].
Proof.
  destruct (Recovery_contains_panics (Logging panickingHandler)
              (getRequest "/" []) (initialWorld [5; 7]) "index out of range"
              (snd (run (Logging panickingHandler (getRequest "/" []))
                      (initialWorld [5; 7]))) eq_refl)
    as (w' & Hrun & Hlog & _ & Hresp & _).
  exists w'. split; [exact Hrun|]. split; [exact Hlog|].
  destruct (Hresp eq_refl) as (_ & Hs & Hb). split; [exact Hs|exact Hb].
Defined.

(** C2: the pipeline [Recovery (Logging next)] on a handler that returns
    appends exactly one duration observation and exactly one request
    event after the handler's own effects, and the status of the event is
    the code of the handler's last [WriteHeader] call, 200 when it made
    none.  On a handler that panics it returns as well, but [Logging] has
    observed and logged nothing: the only event is the one of
    [Recovery]. *)
Theorem pipeline_observes_returning_handlers (next : Handler) (r : Request)
    (w : World) (o : Outcome) (w1 : World) :
  handlerRun next r w = (o, w1) ->
  exists w',
    run (Recovery (Logging next) r) w = (Returned, w') /\
    match o with
    | Returned =>
        exists duration,
          httpRequestDuration w' =
            httpRequestDuration w1 ++ [(Path r, Method r, duration)] /\
          log w' =
            log w1 ++
            [requestEvent r (List.last (handlerWrites next r w) 200) duration]
    | Panicked v =>
        httpRequestDuration w' = httpRequestDuration w1 /\
        log w' = log w1 ++ [panicEvent r v]
    end.
Proof.
  intros H. unfold Recovery. cbn [run]. destruct o as [|v].
  - rewrite (run_Logging_returned next r w w1 H). cbv zeta.
    eexists. split; [reflexivity|].
    set (w2 := setWrappers (tl (wrappers w1)) w1).
    exists (fst (readClock w2) - fst (readClock w)).
    destruct (readClock_frame w2) as (_ & _ & Hl & _ & Hd & _).
    cbn [emit observeRequestDuration httpRequestDuration log].
    rewrite Hl, Hd. split; reflexivity.
  - rewrite (run_Logging_panicked next r w v w1 H).
    destruct (run_recovered r v (setWrappers (tl (wrappers w1)) w1))
      as (w' & Hrun & Hlog & Hd & _).
    exists w'. split; [exact Hrun|]. split; [exact Hd|exact Hlog].
Qed.

Lemma pipeline_observes_returning_handlers_witness :
  exists w',
    run (Recovery (Logging HealthHandler) (getRequest "/health" []))
      (initialWorld [5; 7]) = (Returned, w') /\
    exists duration,
      httpRequestDuration w' = [("/health", "GET", duration)] /\
      log w' =
        [mkLogEvent DebugLevel [("path", Str "/health")] "Health check requested";
         requestEvent (getRequest "/health" []) 200 duration].
Proof.
  exact (pipeline_observes_returning_handlers HealthHandler
           (getRequest "/health" []) (initialWorld [5; 7]) Returned
           (snd (handlerRun HealthHandler (getRequest "/health" [])
                   (initialWorld [5; 7]))) eq_refl).
Defined.

(** The two ways in which the pipeline departs from one observation per
    request with the first status written: a handler that panics is
    neither observed nor logged by [Logging], and a handler that calls
    [WriteHeader] twice is logged with the second code. *)
Lemma pipeline_skips_panics_and_logs_last_write :
  let r := getRequest "/" [] in
  let w := initialWorld [5; 7] in
  let wPanic := snd (run (Recovery (Logging panickingHandler) r) w) in
  let wTwice := snd (run (Recovery (Logging twoWritesHandler) r) w) in
  (httpRequestDuration wPanic = [] /\
   log wPanic = [panicEvent r "index out of range"]) /\
  (handlerWrites twoWritesHandler r w = [200; 500] /\
   status (resp wTwice) = 200 /\
   log wTwice = [requestEvent r 500 7]).
Proof. vm_compute. repeat split. Qed.

(** ** Sending JSON *)

Lemma run_SendJSON_header statusCode data k w :
  wroteHeader (resp w) = false -> 200 <= statusCode <= 999 ->
  run (SendJSON statusCode data k) w =
  run (encodeOrFail data k)
    (setResp
       (commitHeader statusCode
          (recordCall statusCode
             (headerSet "Content-Type" "application/json" (resp w))))
       (captureStatus statusCode w)).
Proof.
  intros Hw Hc. unfold SendJSON. cbn [run].
  cbn [captureStatus setWrappers setResp resp].
  rewrite responseWriteHeader_fresh by assumption. reflexivity.
Qed.

Lemma run_encodeOrFail_ok data k w :
  wroteHeader (resp w) = true -> encodable data = true ->
  bodyAllowedForStatus (status (resp w)) = true ->
  run (encodeOrFail data k) w =
  run k (setResp (appendBody (JSONLine data) (resp w)) w).
Proof.
  intros Hw He Hb. unfold encodeOrFail. rewrite He. cbn [run].
  rewrite responseWrite_committed by (assumption || reflexivity).
  rewrite Hb. reflexivity.
Qed.

Lemma run_encodeOrFail_error data k w :
  wroteHeader (resp w) = true -> encodable data = false ->
  bodyAllowedForStatus (status (resp w)) = true ->
  run (encodeOrFail data k) w =
  run k
    (setResp
       (appendBody (errorLine "Failed to encode response")
          (recordCall StatusInternalServerError
             (headerSet "X-Content-Type-Options" "nosniff"
                (headerSet "Content-Type" "text/plain; charset=utf-8" (resp w)))))
       (captureStatus StatusInternalServerError w)).
Proof.
  intros Hw He Hb. unfold encodeOrFail, httpError. rewrite He. cbn [run].
  cbn [captureStatus setWrappers setResp resp].
  rewrite responseWriteHeader_superfluous by exact Hw.
  cbn [run setResp resp].
  change (Bytes (errorJSON "Failed to encode response" +:+ newline))
    with (errorLine "Failed to encode response").
  rewrite responseWrite_committed by (exact Hw || reflexivity).
  cbn [recordCall headerSet status]. rewrite Hb. reflexivity.
Qed.



(** ** The stress handler *)

Section ServiceFacts.

Variable numCPU : Z.
Variable ParseDuration : string -> option Z.
Variable Atoi : string -> option Z.
Variable durationString : Z -> string.
Variable metricsHandler : Handler.
Variable noMatch : Handler.

Local Abbreviation parse :=
  (parseAndValidateStressRequest numCPU ParseDuration Atoi).
Local Abbreviation stress :=
  (StressHandler numCPU ParseDuration Atoi durationString).

(** A request that fails validation is answered with 400 and the
    message of the failure; no stress run is started. *)
Lemma run_StressHandler_rejected r err w :
  parse r = inr err -> wroteHeader (resp w) = false ->
  exists w',
    run (stress r) w = (Returned, w') /\
    status (resp w') = StatusBadRequest /\
    body (resp w') =
      body (resp w) ++ [JSONLine (DataResponse (response.Error (Message err)))] /\
    stressRuns w' = stressRuns w.
Proof.
  intros Hp Hw. unfold StressHandler. cbn [run]. rewrite Hp. cbn [run].
  rewrite run_SendJSON_header
    by (exact Hw || (unfold StatusBadRequest; lia)).
  rewrite run_encodeOrFail_ok by reflexivity.
  cbn [run]. eexists. split; [reflexivity|]. cbn. auto.
Qed.

(** A request that passes validation runs the stress test with the
    validated values and is answered with 200 and the worker count of
    the validated request. *)
Lemma run_StressHandler_accepted r req w :
  parse r = inl req -> wroteHeader (resp w) = false ->
  exists w' elapsed,
    run (stress r) w = (Returned, w') /\
    status (resp w') = StatusOK /\
    body (resp w') =
      body (resp w) ++
      [JSONLine
         (DataStress
            (mkStressResponse "stress_complete" "CPU load simulation finished"
               (durationString elapsed) (Workers req)))] /\
    stressRuns w' =
      stressRuns w ++ [(DurationSeconds req * second, Workers req)].
Proof.
  intros Hp Hw. unfold StressHandler. cbn [run]. rewrite Hp. cbn [run].
  set (wa := emit _ (trackRequest _ _ w)).
  assert (Ha : resp wa = resp w /\ stressRuns wa = stressRuns w)
    by (split; reflexivity).
  destruct Ha as [Har Has].
  destruct (readClock_frame wa) as (Hr1 & _ & _ & _ & _ & Hs1).
  destruct (readClock wa) as [start wb]. cbn [snd] in Hr1, Hs1.
  set (wc := stressBlocks _ _ wb).
  assert (Hc : resp wc = resp wb /\
               stressRuns wc = stressRuns wb ++ [(DurationSeconds req * second, Workers req)])
    by (split; reflexivity).
  destruct Hc as [Hcr Hcs].
  destruct (readClock_frame wc) as (Hr2 & _ & _ & _ & _ & Hs2).
  destruct (readClock wc) as [t wd]. cbn [snd] in Hr2, Hs2. cbn [run].
  set (we := emit _ wd).
  assert (He : resp we = resp wd /\ stressRuns we = stressRuns wd)
    by (split; reflexivity).
  destruct He as [Her Hes].
  assert (Hwe : wroteHeader (resp we) = false).
  { now rewrite Her, Hr2, Hcr, Hr1, Har. }
  rewrite run_SendJSON_header by (exact Hwe || (unfold StatusOK; lia)).
  rewrite run_encodeOrFail_ok by reflexivity.
  cbn [run]. eexists. exists (t - start). split; [reflexivity|].
  cbn [setResp resp appendBody status body commitHeader recordCall headerSet
       captureStatus setWrappers stressRuns].
  rewrite Her, Hr2, Hcr, Hr1, Har, Hes, Hs2, Hcs, Hs1, Has. auto.
Qed.

End ServiceFacts.

Section StressProperties.

Variable numCPU : Z.
Variable ParseDuration : string -> option Z.
Variable Atoi : string -> option Z.
Variable durationString : Z -> string.

Local Abbreviation parse :=
  (parseAndValidateStressRequest numCPU ParseDuration Atoi).
Local Abbreviation seconds := (parseDurationSeconds ParseDuration).
Local Abbreviation workers := (parseWorkers numCPU Atoi).
Local Abbreviation stress :=
  (StressHandler numCPU ParseDuration Atoi durationString).

(** A duration that parses to more than 30 whole seconds fails the
    [max=30] tag: the clamp after the validation is not reached. *)
Lemma duration_above_max_rejected r d :
  queryGet (Query r) "duration" <> EmptyString ->
  ParseDuration (queryGet (Query r) "duration") = Some d ->
  30 < durationToSeconds d ->
  parse r = inr durationError.
Proof.
  intros Hne Hp Hd. apply parse_duration_out_of_range.
  rewrite (seconds_parsed ParseDuration r d Hne Hp). lia.
Qed.


(** C4, as the code has it: a worker count above twice the number of
    cores is clamped to that bound, and the 200 response reports the
    clamped count, when the duration of the request is within 1..30
    seconds. *)
Theorem workers_above_max_clamped (r : Request) (n : Z) (w : World) :
  1 <= numCPU < 2 ^ 62 ->
  queryGet (Query r) "workers" <> EmptyString ->
  Atoi (queryGet (Query r) "workers") = Some n ->
  2 * numCPU < n ->
  1 <= seconds r <= 30 ->
  parse r = inl (mkStressRequest (seconds r) (2 * numCPU)) /\
  Z.min n (2 * numCPU) = 2 * numCPU /\
  (wroteHeader (resp w) = false ->
   exists w' elapsed,
     run (stress r) w = (Returned, w') /\
     status (resp w') = StatusOK /\
     body (resp w') =
       body (resp w) ++
       [JSONLine
          (DataStress
             (mkStressResponse "stress_complete"
                "CPU load simulation finished" (durationString elapsed)
                (Z.min n (2 * numCPU))))] /\
     stressRuns w' = stressRuns w ++ [(seconds r * second, 2 * numCPU)]).
Proof.
  intros Hcpu Hne Hp Hn Hd.
  pose proof (workers_parsed numCPU Atoi r n Hne Hp) as Hw.
  pose proof (maxWorkers_double numCPU Hcpu) as Hm.
  assert (Hr : parse r = inl (mkStressRequest (seconds r) (2 * numCPU))).
  { rewrite parse_in_range by lia. rewrite Hw, Hm. do 2 f_equal. lia. }
  split; [exact Hr|]. split; [lia|]. intros Hwh.
  replace (Z.min n (2 * numCPU)) with (2 * numCPU) by lia.
  exact (run_StressHandler_accepted numCPU ParseDuration Atoi durationString
           r _ w Hr Hwh).
Qed.

(** C6, as the code has it: a duration that does not parse is replaced
    by the default of 2 seconds and is not a validation failure: the
    request is accepted when the worker count is valid, and a rejection
    can only name the workers.  Likewise a worker count that does not
    parse is replaced by the number of cores: the request is accepted
    when the duration is within its bounds, and a rejection can only
    name the duration. *)
Theorem unparseable_values_fall_back (r : Request) :
  1 <= numCPU < 2 ^ 62 ->
  (queryGet (Query r) "duration" <> EmptyString ->
   ParseDuration (queryGet (Query r) "duration") = None ->
   seconds r = 2 /\
   (1 <= workers r ->
    parse r = inl (mkStressRequest 2 (Z.min (workers r) (2 * numCPU)))) /\
   (forall e, parse r = inr e -> e = workersError (2 * numCPU))) /\
  (queryGet (Query r) "workers" <> EmptyString ->
   Atoi (queryGet (Query r) "workers") = None ->
   workers r = numCPU /\
   (1 <= seconds r <= 30 ->
    parse r = inl (mkStressRequest (seconds r) numCPU)) /\
   (forall e, parse r = inr e -> e = durationError)).
Proof.
  intros Hcpu. pose proof (maxWorkers_double numCPU Hcpu) as Hm. split.
  - intros Hne Hp.
    pose proof (seconds_default ParseDuration r (or_intror Hp)) as Hs.
    split; [exact Hs|]. split.
    + intros Hw. rewrite parse_in_range by lia. now rewrite Hs, Hm.
    + intros e He. destruct (Z.lt_ge_cases (workers r) 1) as [Hw|Hw].
      * rewrite parse_workers_out_of_range in He by lia.
        rewrite Hm in He. congruence.
      * rewrite parse_in_range in He by lia. discriminate.
  - intros Hne Hp.
    pose proof (workers_default numCPU Atoi r (or_intror Hp)) as Hw.
    split; [exact Hw|]. split.
    + intros Hs. rewrite parse_in_range by lia. rewrite Hw, Hm.
      do 2 f_equal. lia.
    + intros e He.
      destruct (Z.lt_ge_cases (seconds r) 1) as [H1|H1].
      { rewrite parse_duration_out_of_range in He by lia. congruence. }
      destruct (Z.lt_ge_cases 30 (seconds r)) as [H2|H2].
      { rewrite parse_duration_out_of_range in He by lia. congruence. }
      rewrite parse_in_range in He by lia. discriminate.
Qed.

(** C7, as the code has it: a worker count of zero or less, with a
    duration within 1..30 seconds, is answered with 400 and the failure
    of field workers, whose message ends with twice the number of
    cores; no stress run is started. *)
Theorem nonpositive_workers_rejected (r : Request) (n : Z) (w : World) :
  1 <= numCPU < 2 ^ 62 ->
  queryGet (Query r) "workers" <> EmptyString ->
  Atoi (queryGet (Query r) "workers") = Some n ->
  n <= 0 ->
  1 <= seconds r <= 30 ->
  parse r =
    inr (mkValidationError "workers"
           ("workers must be between 1 and " +:+ Itoa (2 * numCPU))) /\
  (wroteHeader (resp w) = false ->
   exists w',
     run (stress r) w = (Returned, w') /\
     status (resp w') = StatusBadRequest /\
     body (resp w') =
       body (resp w) ++
       [JSONLine
          (DataResponse
             (response.Error
                ("workers must be between 1 and " +:+ Itoa (2 * numCPU))))] /\
     stressRuns w' = stressRuns w).
Proof.
  intros Hcpu Hne Hp Hn Hd.
  pose proof (workers_parsed numCPU Atoi r n Hne Hp) as Hw.
  pose proof (maxWorkers_double numCPU Hcpu) as Hm.
  assert (Hr : parse r = inr (workersError (2 * numCPU))).
  { rewrite parse_workers_out_of_range by lia. now rewrite Hm. }
  split; [exact Hr|]. intros Hwh.
  exact (run_StressHandler_rejected numCPU ParseDuration Atoi durationString
           r _ w Hr Hwh).
Qed.

End StressProperties.

(** ** The service on a host of four cores *)


Example duration_1500ms_accepted :
  timeParseDuration "1500ms" = Some 1500000000 /\
  parse4 (getRequest "/stress" [("duration", "1500ms")])
  = inl (mkStressRequest 1 4).
Proof. split; reflexivity. Qed.

Example negative_duration_truncates_up :
  timeParseDuration "-1500ms" = Some (-1500000000) /\
  parseDurationSeconds timeParseDuration
    (getRequest "/stress" [("duration", "-1500ms")]) = -1.
Proof. split; reflexivity. Qed.

(** C1: [GET /stress?duration=45s] on four cores.  The duration parses to
    45 seconds, the validation of the struct rejects it, and the pipeline
    answers 400 with the message of the duration; the stress test is not
    run, and the clamp to 30 seconds is not reached. *)
Theorem stress_duration_45s_rejected :
  let r := getRequest "/stress" [("duration", "45s")] in
  let w' := snd (serveRequest router4 r (initialWorld [5; 7])) in
  timeParseDuration "45s" = Some (45 * second) /\
  parse4 r = inr durationError /\
  status (resp w') = 400 /\
  body (resp w') =
    [JSONLine
       (DataResponse (response.Error "duration must be between 1s and 30s"))] /\
  stressRuns w' = [].
Proof. vm_compute. repeat split. Qed.

(** A worker count above the bound does not save a request whose duration
    is out of range: [GET /stress?duration=0s&workers=100] is rejected. *)
Lemma workers_above_max_rejected_with_bad_duration :
  let r := getRequest "/stress" [("duration", "0s"); ("workers", "100")] in
  let w' := snd (serveRequest router4 r (initialWorld [5; 7])) in
  strconvAtoi (queryGet (Query r) "workers") = Some 100 /\
  maxWorkers 4 < 100 /\
  parse4 r = inr durationError /\
  status (resp w') = 400 /\
  stressRuns w' = [].
Proof. vm_compute. repeat split. Qed.

Lemma workers_above_max_clamped_witness :
  let r := getRequest "/stress" [("duration", "3s"); ("workers", "100")] in
  parse4 r = inl (mkStressRequest 3 8) /\
  exists w' elapsed,
    run (StressHandler 4 timeParseDuration strconvAtoi nanoseconds r)
      (initialWorld [5; 7]) = (Returned, w') /\
    status (resp w') = 200 /\
    body (resp w') =
      [JSONLine
         (DataStress
            (mkStressResponse "stress_complete" "CPU load simulation finished"
               (nanoseconds elapsed) 8))] /\
    stressRuns w' = [(3 * second, 8)].
Proof.
  destruct (workers_above_max_clamped 4 timeParseDuration strconvAtoi nanoseconds
              (getRequest "/stress" [("duration", "3s"); ("workers", "100")])
              100 (initialWorld [5; 7])
              ltac:(lia) ltac:(vm_compute; discriminate) eq_refl ltac:(lia)
              ltac:(vm_compute; split; discriminate))
    as (Hp & _ & Hrun).
  cbv zeta. split; [exact Hp|]. exact (Hrun eq_refl).
Defined.

(** A duration that does not parse does not save a request whose worker
    count is out of range: [GET /stress?duration=banana&workers=0] is
    answered with 400. *)
Lemma unparseable_duration_rejected_with_bad_workers :
  let r := getRequest "/stress" [("duration", "banana"); ("workers", "0")] in
  let w' := snd (serveRequest router4 r (initialWorld [5; 7])) in
  timeParseDuration (queryGet (Query r) "duration") = None /\
  parseDurationSeconds timeParseDuration r = 2 /\
  parse4 r = inr (workersError 8) /\
  status (resp w') = 400.
Proof. vm_compute. repeat split. Qed.

Lemma unparseable_values_fall_back_witness :
  parseDurationSeconds timeParseDuration
    (getRequest "/stress" [("duration", "banana")]) = 2 /\
  parse4 (getRequest "/stress" [("duration", "banana")])
  = inl (mkStressRequest 2 4).
Proof.
  destruct (unparseable_values_fall_back 4 timeParseDuration strconvAtoi
              (getRequest "/stress" [("duration", "banana")]) ltac:(lia))
    as (H & _).
  destruct (H ltac:(vm_compute; discriminate) eq_refl) as (Hs & Hp & _).
  split; [exact Hs|]. exact (Hp ltac:(vm_compute; discriminate)).
Defined.

Example unparseable_workers_default :
  strconvAtoi "many" = None /\
  parse4 (getRequest "/stress" [("workers", "many")]) = inl (mkStressRequest 2 4).
Proof. split; reflexivity. Qed.

(** With a duration out of range as well, the 400 for a worker count of
    zero carries the failure of the duration, not the one of the workers:
    [GET /stress?duration=0s&workers=0]. *)
Lemma nonpositive_workers_hidden_by_bad_duration :
  let r := getRequest "/stress" [("duration", "0s"); ("workers", "0")] in
  let w' := snd (serveRequest router4 r (initialWorld [5; 7])) in
  strconvAtoi (queryGet (Query r) "workers") = Some 0 /\
  parse4 r = inr durationError /\
  Field durationError = "duration" /\
  parse4 r <> inr (workersError 8) /\
  body (resp w') =
    [JSONLine
       (DataResponse (response.Error "duration must be between 1s and 30s"))].
Proof. vm_compute. repeat split. discriminate. Qed.

Lemma nonpositive_workers_rejected_witness :
  let r := getRequest "/stress" [("workers", "-1")] in
  parse4 r = inr (mkValidationError "workers" "workers must be between 1 and 8") /\
  exists w',
    run (StressHandler 4 timeParseDuration strconvAtoi nanoseconds r)
      (initialWorld [5; 7]) = (Returned, w') /\
    status (resp w') = 400 /\
    body (resp w') =
      [JSONLine (DataResponse (response.Error "workers must be between 1 and 8"))] /\
    stressRuns w' = [].
Proof.
  destruct (nonpositive_workers_rejected 4 timeParseDuration strconvAtoi nanoseconds
              (getRequest "/stress" [("workers", "-1")]) (-1) (initialWorld [5; 7])
              ltac:(lia) ltac:(vm_compute; discriminate) eq_refl ltac:(lia)
              ltac:(vm_compute; split; discriminate))
    as (Hp & Hrun).
  cbv zeta. split; [exact Hp|]. exact (Hrun eq_refl).
Defined.

(** The health handler on a response not yet begun. *)
Lemma run_HealthHandler r w :
  wroteHeader (resp w) = false ->
  run (HealthHandler r) w =
  (Returned,
   setResp (appendBody (Bytes "OK") (commitHeader 200 (recordCall 200 (resp w))))
     (captureStatus 200
        (emit (mkLogEvent DebugLevel [("path", Str (Path r))]
                 "Health check requested") w))).
Proof.
  intros Hw. unfold HealthHandler. cbn [run].
  cbn [captureStatus setWrappers setResp emit resp].
  rewrite responseWriteHeader_fresh by (exact Hw || (unfold StatusOK; lia)).
  cbn [run setResp resp].
  rewrite responseWrite_committed by reflexivity.
  reflexivity.
Qed.

(** C8: every [GET /health] served through the router, in any state of
    the process.  The counters of tracked requests are left as they are,
    and the handler emits only a debug event; but [Logging], which the
    router puts around every route, emits its request event for the 200
    response at info level. *)
Theorem health_request_logged_at_info numCPU ParseDuration Atoi durationString
    metricsHandler noMatch query remoteAddr userAgent w :
  let r := mkRequest "GET" "/health" query remoteAddr userAgent in
  let router :=
    setupRouter numCPU ParseDuration Atoi durationString metricsHandler noMatch in
  exists w' duration,
    serveRequest router r w = (Returned, w') /\
    httpRequestsTotal w' = httpRequestsTotal w /\
    log w' =
      log w ++
      [mkLogEvent DebugLevel [("path", Str "/health")] "Health check requested";
       requestEvent r 200 duration] /\
    evLevel (requestEvent r 200 duration) = InfoLevel.
Proof.
  cbv zeta. set (r := mkRequest "GET" "/health" query remoteAddr userAgent).
  unfold serveRequest, setupRouter, route. cbn [Method Path r].
  change (String.eqb "GET" "GET") with true.
  change (String.eqb "/health" "/") with false.
  change (String.eqb "/health" "/health") with true. cbn [negb].
  set (w0 := setWrappers [] (setResp newResponse w)).
  destruct (readClock_frame w0) as (Hr0 & Hw0 & Hl0 & Hc0 & _).
  assert (Hrun : handlerRun HealthHandler r w0 =
                 run (HealthHandler r)
                   (setWrappers (200 :: wrappers (snd (readClock w0)))
                      (snd (readClock w0)))) by reflexivity.
  rewrite run_HealthHandler in Hrun by (cbn [setWrappers resp]; now rewrite Hr0).
  destruct (handlerRun_writes HealthHandler r w0) as (cs & Hcs & Hcalls & _).
  rewrite Hrun in Hcalls. cbn in Hcalls. rewrite Hr0 in Hcalls. cbn in Hcalls.
  rewrite <- Hcalls in Hcs. clear Hcalls.
  unfold Recovery. cbn [run].
  rewrite (run_Logging_returned HealthHandler r w0 _ Hrun). cbv zeta.
  rewrite Hcs. cbn [List.last].
  match goal with |- context [readClock ?x] => set (w2 := x) end.
  destruct (readClock_frame w2) as (_ & _ & Hl2 & Hc2 & _).
  eexists. exists (fst (readClock w2) - fst (readClock w0)).
  split; [reflexivity|].
  cbn [emit observeRequestDuration httpRequestsTotal log].
  rewrite Hc2, Hl2. subst w2.
  cbn [setWrappers setResp captureStatus emit httpRequestsTotal log].
  rewrite Hc0, Hl0. subst w0. cbn [setWrappers setResp httpRequestsTotal log].
  split; [reflexivity|]. split; [|reflexivity].
  now rewrite <- app_assoc.
Qed.

(** [GET /health] on four cores, from the initial state: the info-level
    event is the one written under the default level. *)
Example health_request_on_four_cores :
  let r := getRequest "/health" [] in
  let w' := snd (serveRequest router4 r (initialWorld [5; 7])) in
  fst (serveRequest router4 r (initialWorld [5; 7])) = Returned /\
  counterValue (httpRequestsTotal w') "/health" "GET" = 0%nat /\
  log w' =
    [mkLogEvent DebugLevel [("path", Str "/health")] "Health check requested";
     requestEvent r 200 7] /\
  evLevel (requestEvent r 200 7) = InfoLevel /\
  written (parseLogLevel EmptyString) (log w') = [requestEvent r 200 7].
Proof. vm_compute. repeat split. Qed.

(** ** The load generator *)

Lemma pending_nonneg pool : 0 <= pending pool.
Proof.
  induction pool as [|ws rest IH]; cbn [pending]; [lia|].
  destruct ws; cbn [pendingOf]; lia.
Qed.

Lemma pending_app pool ws : pending (pool ++ [ws]) = pending pool + pendingOf ws.
Proof.
  induction pool as [|x rest IH]; cbn [pending app]; [lia|]. rewrite IH. lia.
Qed.

Lemma pending_insert (pool : list WorkerState) (k : nat) (x y : WorkerState) :
  pool !! k = Some x ->
  pending (<[k := y]> pool) = pending pool - pendingOf x + pendingOf y.
Proof.
  revert k. induction pool as [|z rest IH]; intros k H; [discriminate|].
  destruct k as [|k].
  - cbn in H. inversion H; subst. cbn [pending]. cbn. lia.
  - cbn in H. cbn [pending]. change (<[S k := y]> (z :: rest)) with (z :: <[k := y]> rest).
    cbn [pending]. rewrite (IH k H). lia.
Qed.

Lemma pending_zero_finished (pool : list WorkerState) (k : nat) (x : WorkerState) :
  pending pool = 0 -> pool !! k = Some x -> pendingOf x = 0.
Proof.
  revert k. induction pool as [|z rest IH]; intros k Hp H; [discriminate|].
  cbn [pending] in Hp. pose proof (pending_nonneg rest).
  assert (0 <= pendingOf z) by (destruct z; cbn; lia).
  destruct k as [|k]; cbn in H.
  - inversion H; subst. lia.
  - apply (IH k); [lia|exact H].
Qed.

Lemma workerOk_later duration t0 t t' ws :
  t <= t' -> workerOk duration t0 t ws -> workerOk duration t0 t' ws.
Proof. intros Ht. destruct ws; cbn; lia. Qed.

(** A step of one worker leaves the clock, the caller and every other
    worker as they are: workers share nothing but the counter. *)
Lemma stressWorker_frame duration k st st' :
  stressWorker duration k st = Some st' ->
  now st' = now st /\ main st' = main st /\
  length (pool st') = length (pool st) /\
  forall j, j <> k -> pool st' !! j = pool st !! j.
Proof.
  unfold stressWorker. intros H.
  destruct (pool st !! k) as [[|start|start leftAt|start leftAt]|] eqn:Hk;
    try discriminate.
  - inversion H; subst; cbn. rewrite length_insert. repeat split.
    intros j Hj. now apply list_lookup_insert_ne.
  - destruct (now st - start <? duration); inversion H; subst; cbn.
    + auto.
    + rewrite length_insert. repeat split.
      intros j Hj. now apply list_lookup_insert_ne.
  - inversion H; subst; cbn. rewrite length_insert. repeat split.
    intros j Hj. now apply list_lookup_insert_ne.
Qed.

Lemma stressInit_inv duration workers t0 : stressInv duration workers t0 (stressInit t0).
Proof.
  unfold stressInv, stressInit. cbn. repeat split; try lia. constructor.
Qed.

Lemma stressWorker_inv duration workers t0 k st st' :
  stressInv duration workers t0 st ->
  stressWorker duration k st = Some st' ->
  stressInv duration workers t0 st'.
Proof.
  intros (Ht & Hall & Hm) H. unfold stressWorker in H.
  destruct (pool st !! k) as [[|start|start leftAt|start leftAt]|] eqn:Hk;
    try discriminate.
  - inversion H; subst; clear H. unfold stressInv. cbn [now pool main wg].
    split; [exact Ht|]. split.
    + apply Forall_insert; [exact Hall|]. cbn. lia.
    + rewrite length_insert, (pending_insert _ _ _ _ Hk). cbn [pendingOf].
      replace (pending (pool st) - 1 + 1) with (pending (pool st)) by lia.
      destruct (main st); exact Hm.
  - pose proof (proj1 (Forall_lookup _ _) Hall k _ Hk) as Hok. cbn in Hok.
    destruct (Z.ltb_spec (now st - start) duration) as [Hlt|Hge].
    + inversion H; subst. unfold stressInv. auto.
    + inversion H; subst; clear H. unfold stressInv. cbn [now pool main wg].
      split; [exact Ht|]. split.
      * apply Forall_insert; [exact Hall|]. cbn. lia.
      * rewrite length_insert, (pending_insert _ _ _ _ Hk). cbn [pendingOf].
        replace (pending (pool st) - 1 + 1) with (pending (pool st)) by lia.
        destruct (main st); exact Hm.
  - pose proof (proj1 (Forall_lookup _ _) Hall k _ Hk) as Hok. cbn in Hok.
    inversion H; subst; clear H. unfold stressInv. cbn [now pool main wg].
    split; [exact Ht|]. split.
    + apply Forall_insert; [exact Hall|]. cbn. lia.
    + rewrite length_insert, (pending_insert _ _ _ _ Hk). cbn [pendingOf].
      destruct (main st).
      * destruct Hm as (? & ? & ?). repeat split; lia.
      * destruct Hm as (? & ? & ?). repeat split; lia.
      * destruct Hm as (? & ?). repeat split; lia.
      * destruct Hm as (? & ? & Hp).
        pose proof (pending_zero_finished _ _ _ Hp Hk) as Hz. discriminate Hz.
Qed.

Lemma runMultiCoreStress_inv duration workers t0 st st' :
  stressInv duration workers t0 st ->
  runMultiCoreStress workers st = Some st' ->
  stressInv duration workers t0 st'.
Proof.
  intros (Ht & Hall & Hm) H. unfold runMultiCoreStress in H.
  destruct (main st) as [i|i| |] eqn:Hmain; try discriminate.
  - destruct Hm as (Hi & Hlen & Hwg).
    destruct (Z.ltb_spec i workers) as [Hlt|Hge];
      inversion H; subst; clear H; unfold stressInv; cbn [now pool main wg];
      (split; [exact Ht|]); (split; [exact Hall|]).
    + repeat split; lia.
    + split; lia.
  - destruct Hm as (Hi & Hlen & Hwg).
    inversion H; subst; clear H. unfold stressInv. cbn [now pool main wg].
    split; [exact Ht|]. split.
    + apply Forall_app. split; [exact Hall|]. repeat constructor.
    + rewrite length_app, pending_app. cbn [length pendingOf].
      repeat split; lia.
  - destruct Hm as (Hlen & Hwg).
    destruct (Z.eqb_spec (wg st) 0) as [Hz|Hz]; [|discriminate].
    inversion H; subst; clear H. unfold stressInv. cbn [now pool main wg].
    split; [exact Ht|]. split; [exact Hall|]. repeat split; lia.
Qed.

Lemma stressStep_inv duration workers t0 e st st' :
  stressInv duration workers t0 st ->
  stressStep duration workers e st = Some st' ->
  stressInv duration workers t0 st'.
Proof.
  intros Hinv H. destruct e as [delta| |k]; cbn [stressStep] in H.
  - destruct (Z.leb_spec 0 delta) as [Hd|Hd]; [|discriminate].
    inversion H; subst; clear H. destruct Hinv as (Ht & Hall & Hm).
    unfold stressInv. cbn [now pool main wg]. split; [lia|]. split.
    + eapply Forall_impl; [exact Hall|]. intros ws.
      apply workerOk_later. lia.
    + exact Hm.
  - eapply runMultiCoreStress_inv; eassumption.
  - eapply stressWorker_inv; eassumption.
Qed.

Lemma stressExec_inv duration workers t0 schedule :
  forall st st',
    stressInv duration workers t0 st ->
    stressExec duration workers schedule st = Some st' ->
    stressInv duration workers t0 st'.
Proof.
  induction schedule as [|e rest IH]; intros st st' Hinv H; cbn [stressExec] in H.
  - inversion H; subst. exact Hinv.
  - destruct (stressStep duration workers e st) as [st1|] eqn:Hs; [|discriminate].
    eapply IH; [|exact H]. eapply stressStep_inv; eassumption.
Qed.

Lemma stressReachable_inv duration workers t0 st :
  stressReachable duration workers t0 st -> stressInv duration workers t0 st.
Proof.
  intros [schedule H]. eapply stressExec_inv; [apply stressInit_inv|exact H].
Qed.

(** C5: in every state the load generator can reach, no more than
    [workers] units were launched, and a unit has left its loop only at a
    clock reading at which the time elapsed since its own start had
    reached the duration.  When the caller has returned, exactly [workers]
    units were launched and every one of them has finished, each on its
    own start; with a worker, the call took the duration at least.  A step
    of one unit changes no other unit, nor the clock, nor the caller: the
    counter of the wait group is all the units share. *)
Theorem load_generator_joins_all_workers (duration workers t0 : Z) (st : Stress) :
  stressReachable duration workers t0 st ->
  (length (pool st) <= Z.to_nat workers)%nat /\
  (forall k ws, pool st !! k = Some ws -> workerOk duration t0 (now st) ws) /\
  (main st = Joined ->
   length (pool st) = Z.to_nat workers /\
   Forall (finishedAfter duration t0 (now st)) (pool st) /\
   wg st = 0 /\
   (1 <= workers -> t0 + duration <= now st)) /\
  (forall k st',
     stressWorker duration k st = Some st' ->
     now st' = now st /\ main st' = main st /\
     length (pool st') = length (pool st) /\
     forall j, j <> k -> pool st' !! j = pool st !! j).
Proof.
  intros Hr. destruct (stressReachable_inv _ _ _ _ Hr) as (Ht & Hall & Hm).
  split; [|split; [|split]].
  - destruct (main st); lia.
  - intros k ws Hk. exact (proj1 (Forall_lookup _ _) Hall k ws Hk).
  - intros Hj. rewrite Hj in Hm. destruct Hm as (Hlen & Hwg & Hp).
    assert (Hfin : Forall (finishedAfter duration t0 (now st)) (pool st)).
    { apply Forall_lookup. intros k ws Hk.
      pose proof (proj1 (Forall_lookup _ _) Hall k ws Hk) as Hok.
      pose proof (pending_zero_finished _ _ _ Hp Hk) as Hz.
      destruct ws as [|start|start leftAt|start leftAt]; try discriminate Hz.
      exists start, leftAt. split; [reflexivity|exact Hok]. }
    split; [lia|]. split; [exact Hfin|]. split; [exact Hwg|].
    intros Hw. destruct (pool st) as [|ws rest] eqn:Hpool.
    + cbn [length] in Hlen. lia.
    + inversion Hfin as [|? ? (start & leftAt & _ & H1 & H2 & H3) _]; subst. lia.
  - intros k st' Hs. exact (stressWorker_frame duration k st st' Hs).
Qed.

Lemma load_generator_joins_all_workers_witness :
  let st :=
    mkStress 3000000105 Joined 0
      [Finished 100 3000000101; Finished 101 3000000101] in
  stressExec (3 * second) 2 sampleSchedule (stressInit 100) = Some st /\
  length (pool st) = 2%nat /\
  Forall (finishedAfter (3 * second) 100 (now st)) (pool st) /\
  100 + 3 * second <= now st.
Proof.
  cbv zeta. split; [reflexivity|].
  destruct (load_generator_joins_all_workers (3 * second) 2 100
              (mkStress 3000000105 Joined 0
                 [Finished 100 3000000101; Finished 101 3000000101])
              (ex_intro _ sampleSchedule eq_refl))
    as (_ & _ & H & _).
  destruct (H eq_refl) as (Hlen & Hfin & _ & Hd).
  split; [exact Hlen|]. split; [exact Hfin|]. exact (Hd ltac:(lia)).
Defined.

(** * Further properties of the code *)

(** ** Validation of the stress parameters *)

Section ValidationProperties.

Variable numCPU : Z.
Variable ParseDuration : string -> option Z.
Variable Atoi : string -> option Z.

Local Abbreviation parse :=
  (parseAndValidateStressRequest numCPU ParseDuration Atoi).
Local Abbreviation seconds := (parseDurationSeconds ParseDuration).
Local Abbreviation workers := (parseWorkers numCPU Atoi).

(** X1: a request that [parseAndValidateStressRequest] returns satisfies
    the bounds of [StressRequest]: between 1 and 30 seconds, and between 1
    and twice the number of cores workers; its duration is the one read
    and its worker count the smaller of the one read and the bound. *)
Theorem accepted_request_within_bounds (r : Request) (req : StressRequest) :
  1 <= numCPU < 2 ^ 62 ->
  parse r = inl req ->
  1 <= DurationSeconds req <= 30 /\
  1 <= Workers req <= 2 * numCPU /\
  DurationSeconds req = seconds r /\
  Workers req = Z.min (workers r) (2 * numCPU).
Proof.
  intros Hcpu H.
  destruct (parse_accepts_only_in_range numCPU ParseDuration Atoi r req H)
    as (Hd & Hw & _).
  rewrite parse_in_range in H by assumption.
  rewrite (maxWorkers_double numCPU Hcpu) in H.
  inversion H; subst; clear H. cbn [DurationSeconds Workers]. lia.
Qed.

(** X2: the function accepts a request exactly when the duration read is
    within 1..30 whole seconds and the worker count read is at least 1;
    there is no upper bound on the worker count of an accepted request. *)
Theorem accepted_iff_in_range (r : Request) :
  (exists req, parse r = inl req) <->
  (1 <= seconds r <= 30 /\ 1 <= workers r).
Proof.
  split.
  - intros [req H].
    destruct (parse_accepts_only_in_range numCPU ParseDuration Atoi r req H)
      as (Hd & Hw & _). auto.
  - intros [Hd Hw]. eexists. apply parse_in_range; assumption.
Qed.

(** X3: a rejection names the duration whenever the duration is out of
    range, even if the worker count is invalid as well, and names the
    workers otherwise; the fallback failure of field [unknown] is never
    returned. *)
Theorem rejection_names_first_failing_field (r : Request) (e : ValidationError) :
  parse r = inr e ->
  e <> unknownError /\
  (((seconds r < 1 \/ 30 < seconds r) /\ e = durationError) \/
   (1 <= seconds r <= 30 /\ workers r < 1 /\
    e = workersError (maxWorkers numCPU))).
Proof.
  intros H.
  assert (Hcases :
    ((seconds r < 1 \/ 30 < seconds r) /\ e = durationError) \/
    (1 <= seconds r <= 30 /\ workers r < 1 /\
     e = workersError (maxWorkers numCPU))).
  { destruct (Z.lt_ge_cases (seconds r) 1) as [H1|H1].
    { rewrite parse_duration_out_of_range in H by lia.
      left. split; [lia|congruence]. }
    destruct (Z.lt_ge_cases 30 (seconds r)) as [H2|H2].
    { rewrite parse_duration_out_of_range in H by lia.
      left. split; [lia|congruence]. }
    destruct (Z.lt_ge_cases (workers r) 1) as [H3|H3].
    { rewrite parse_workers_out_of_range in H by lia.
      right. repeat split; try lia. congruence. }
    rewrite parse_in_range in H by lia. discriminate. }
  split; [|exact Hcases].
  destruct Hcases as [(Hd & He)|(Hd & Hw & He)]; subst e; discriminate.
Qed.

End ValidationProperties.

(** X4: [formatValidationError] skips the errors of fields it does not
    know and answers for the first one it knows, whatever follows; a list
    without a known field, the empty list included, gives the failure of
    field [unknown]. *)
Theorem formatValidationError_first_known (errors : list FieldError) (m : Z) :
  (Forall (fun x => knownField x = false) errors ->
   formatValidationError errors m = unknownError) /\
  (forall skipped e rest,
     errors = skipped ++ e :: rest ->
     Forall (fun x => knownField x = false) skipped ->
     knownField e = true ->
     formatValidationError errors m =
     if String.eqb (feField e) "DurationSeconds" then durationError
     else workersError m).
Proof.
  split.
  - induction 1 as [|x l Hx _ IH]; [reflexivity|].
    cbn [formatValidationError]. unfold knownField in Hx.
    apply orb_false_iff in Hx. destruct Hx as [H1 H2]. now rewrite H1, H2.
  - intros skipped e rest -> Hs He. induction Hs as [|x l Hx _ IH].
    + cbn [app formatValidationError]. unfold knownField in He.
      destruct (String.eqb (feField e) "DurationSeconds"); [reflexivity|].
      cbn [orb] in He. now rewrite He.
    + cbn [app formatValidationError]. unfold knownField in Hx.
      apply orb_false_iff in Hx. destruct Hx as [H1 H2]. now rewrite H1, H2.
Qed.

Lemma formatValidationError_first_known_witness :
  formatValidationError
    [mkFieldError "Comment" "max"; mkFieldError "Workers" "min";
     mkFieldError "DurationSeconds" "max"] 8
  = workersError 8 /\
  formatValidationError [] 8 = unknownError.
Proof.
  destruct (formatValidationError_first_known
              [mkFieldError "Comment" "max"; mkFieldError "Workers" "min";
               mkFieldError "DurationSeconds" "max"] 8) as [_ H].
  split.
  - exact (H [mkFieldError "Comment" "max"] (mkFieldError "Workers" "min")
             [mkFieldError "DurationSeconds" "max"] eq_refl
             ltac:(repeat constructor) eq_refl).
  - exact (proj1 (formatValidationError_first_known [] 8) ltac:(constructor)).
Defined.

(** ** Requests through the router *)

Lemma jsonResponse_fields statusCode data :
  wroteHeader (jsonResponse statusCode data) = true /\
  status (jsonResponse statusCode data) = statusCode /\
  sentHeader (jsonResponse statusCode data) !! "Content-Type"
    = Some "application/json" /\
  body (jsonResponse statusCode data) = [JSONLine data] /\
  headerCalls (jsonResponse statusCode data) = [statusCode].
Proof.
  unfold jsonResponse. cbn. repeat split.
Qed.

Lemma handlerInput_frame w :
  resp (handlerInput w) = newResponse /\
  log (handlerInput w) = log w /\
  httpRequestsTotal (handlerInput w) = httpRequestsTotal w /\
  httpRequestDuration (handlerInput w) = httpRequestDuration w /\
  stressRuns (handlerInput w) = stressRuns w.
Proof.
  unfold handlerInput.
  destruct (readClock_frame (setWrappers [] (setResp newResponse w)))
    as (H1 & _ & H2 & H3 & H4 & H5).
  cbn [setWrappers resp log httpRequestsTotal httpRequestDuration stressRuns].
  rewrite H1, H2, H3, H4, H5. repeat split.
Qed.

Lemma run_SendJSON_ok statusCode data k w :
  wroteHeader (resp w) = false -> 200 <= statusCode <= 999 ->
  bodyAllowedForStatus statusCode = true -> encodable data = true ->
  run (SendJSON statusCode data k) w =
  run k
    (setResp
       (appendBody (JSONLine data)
          (commitHeader statusCode
             (recordCall statusCode
                (headerSet "Content-Type" "application/json" (resp w)))))
       (captureStatus statusCode w)).
Proof.
  intros Hw Hc Hb He. rewrite run_SendJSON_header by assumption.
  rewrite run_encodeOrFail_ok by (assumption || reflexivity). reflexivity.
Qed.

(** The pipeline around a handler that returns, from the state in which
    the server hands it a request. *)
Lemma pipeline_routed (h : Handler) (r : Request) (w w1 : World) :
  run (h r) (handlerInput w) = (Returned, w1) ->
  exists w' duration,
    serveRequest (Recovery (Logging h)) r w = (Returned, w') /\
    resp w' = resp w1 /\
    httpRequestsTotal w' = httpRequestsTotal w1 /\
    stressRuns w' = stressRuns w1 /\
    httpRequestDuration w' =
      httpRequestDuration w1 ++ [(Path r, Method r, duration)] /\
    log w' =
      log w1 ++ [requestEvent r (List.last (headerCalls (resp w1)) 200) duration].
Proof.
  intros H. unfold serveRequest.
  set (w0 := setWrappers [] (setResp newResponse w)).
  assert (Hrun : handlerRun h r w0 = (Returned, w1)) by exact H.
  destruct (handlerRun_writes h r w0) as (cs & Hcs & Hcalls & _).
  rewrite Hrun in Hcalls. cbn in Hcalls. subst cs.
  unfold Recovery. cbn [run].
  rewrite (run_Logging_returned h r w0 w1 Hrun). cbv zeta.
  rewrite Hcalls.
  match goal with |- context [readClock ?x] => set (w2 := x) end.
  destruct (readClock_frame w2) as (Hr2 & _ & Hl2 & Hc2 & Hd2 & Hs2).
  eexists. exists (fst (readClock w2) - fst (readClock w0)).
  split; [reflexivity|].
  cbn [emit observeRequestDuration resp httpRequestsTotal stressRuns
       httpRequestDuration log].
  rewrite Hr2, Hl2, Hc2, Hd2, Hs2. subst w2. cbn. repeat split.
Qed.

Section RouterProperties.

Variable numCPU : Z.
Variable ParseDuration : string -> option Z.
Variable Atoi : string -> option Z.
Variable durationString : Z -> string.
Variable metricsHandler : Handler.
Variable noMatch : Handler.

Local Abbreviation parse :=
  (parseAndValidateStressRequest numCPU ParseDuration Atoi).
Local Abbreviation stress :=
  (StressHandler numCPU ParseDuration Atoi durationString).
Local Abbreviation router :=
  (setupRouter numCPU ParseDuration Atoi durationString metricsHandler noMatch).

Lemma router_routed (h : Handler) (r : Request) (w : World) :
  route numCPU ParseDuration Atoi durationString metricsHandler r = Some h ->
  serveRequest router r w = serveRequest (Recovery (Logging h)) r w.
Proof. intros H. unfold serveRequest, setupRouter. now rewrite H. Qed.

Lemma serve_rejected_stress (r : Request)
    (err : ValidationError) (w : World) :
  Method r = "GET" -> Path r = "/stress" ->
  parse r = inr err ->
  exists w' duration,
    serveRequest router r w = (Returned, w') /\
    resp w' =
      jsonResponse StatusBadRequest (DataResponse (response.Error (Message err))) /\
    httpRequestsTotal w' = counted "/stress" "GET" (httpRequestsTotal w) /\
    log w' = log w ++ [invalidStressEvent r err; requestEvent r 400 duration] /\
    evLevel (requestEvent r 400 duration) = WarnLevel /\
    httpRequestDuration w' =
      httpRequestDuration w ++ [("/stress", "GET", duration)] /\
    stressRuns w' = stressRuns w.
Proof.
  intros Hm Hp Herr.
  assert (Hroute : route numCPU ParseDuration Atoi durationString metricsHandler r
                   = Some stress).
  { unfold route. rewrite Hm, Hp. reflexivity. }
  rewrite (router_routed _ r w Hroute).
  destruct (handlerInput_frame w) as (Hr & Hl & Hc & Hd & Hs).
  assert (Hrun : exists w1,
    run (stress r) (handlerInput w) = (Returned, w1) /\
    resp w1 = jsonResponse StatusBadRequest
                (DataResponse (response.Error (Message err))) /\
    log w1 = log w ++ [invalidStressEvent r err] /\
    httpRequestsTotal w1 = counted (Path r) (Method r) (httpRequestsTotal w) /\
    httpRequestDuration w1 = httpRequestDuration w /\
    stressRuns w1 = stressRuns w).
  { unfold StressHandler. cbn [run]. rewrite Herr. cbn [run].
    rewrite run_SendJSON_ok;
      [|cbn [emit trackRequest resp]; now rewrite Hr
       |unfold StatusBadRequest; lia|reflexivity|reflexivity].
    cbn [run]. eexists. split; [reflexivity|].
    cbn [setResp captureStatus setWrappers emit trackRequest resp log
         httpRequestsTotal httpRequestDuration stressRuns].
    rewrite Hr, Hl, Hc, Hd, Hs. repeat split. }
  destruct Hrun as (w1 & Hrun & Hr1 & Hl1 & Hc1 & Hd1 & Hs1).
  destruct (pipeline_routed stress r w w1 Hrun)
    as (w' & duration & Hserve & Hr' & Hc' & Hs' & Hd' & Hl').
  exists w', duration. rewrite Hr', Hc', Hs', Hd', Hl', Hr1, Hl1, Hc1, Hd1, Hs1.
  rewrite Hm, Hp.
  destruct (jsonResponse_fields StatusBadRequest
              (DataResponse (response.Error (Message err))))
    as (_ & _ & _ & _ & Hcalls).
  rewrite Hcalls. cbn [List.last]. rewrite <- app_assoc.
  repeat split; try reflexivity. exact Hserve.
Qed.

Lemma serve_accepted_stress (r : Request)
    (req : StressRequest) (w : World) :
  Method r = "GET" -> Path r = "/stress" ->
  parse r = inl req ->
  exists w' duration elapsed,
    serveRequest router r w = (Returned, w') /\
    resp w' =
      jsonResponse StatusOK
        (DataStress
           (mkStressResponse "stress_complete" "CPU load simulation finished"
              (durationString elapsed) (Workers req))) /\
    httpRequestsTotal w' = counted "/stress" "GET" (httpRequestsTotal w) /\
    stressRuns w' =
      stressRuns w ++ [(DurationSeconds req * second, Workers req)] /\
    log w' =
      log w ++
      [stressInitiatedEvent r req; stressCompletedEvent req elapsed;
       requestEvent r 200 duration] /\
    evLevel (requestEvent r 200 duration) = InfoLevel /\
    httpRequestDuration w' =
      httpRequestDuration w ++ [("/stress", "GET", duration)].
Proof.
  intros Hm Hp Hreq.
  assert (Hroute : route numCPU ParseDuration Atoi durationString metricsHandler r
                   = Some stress).
  { unfold route. rewrite Hm, Hp. reflexivity. }
  rewrite (router_routed _ r w Hroute).
  destruct (handlerInput_frame w) as (Hr & Hl & Hc & Hd & Hs).
  assert (Hrun : exists w1 elapsed,
    run (stress r) (handlerInput w) = (Returned, w1) /\
    resp w1 = jsonResponse StatusOK
                (DataStress
                   (mkStressResponse "stress_complete"
                      "CPU load simulation finished"
                      (durationString elapsed) (Workers req))) /\
    log w1 = log w ++ [stressInitiatedEvent r req; stressCompletedEvent req elapsed] /\
    httpRequestsTotal w1 = counted (Path r) (Method r) (httpRequestsTotal w) /\
    httpRequestDuration w1 = httpRequestDuration w /\
    stressRuns w1 = stressRuns w ++ [(DurationSeconds req * second, Workers req)]).
  { unfold StressHandler. cbn [run]. rewrite Hreq. cbn [run].
    set (wa := emit _ (trackRequest _ _ (handlerInput w))).
    destruct (readClock_frame wa) as (Hr1 & _ & Hl1 & Hc1 & Hd1 & Hs1).
    destruct (readClock wa) as [start wb]. cbn [snd] in Hr1, Hl1, Hc1, Hd1, Hs1.
    set (wc := stressBlocks _ _ wb).
    destruct (readClock_frame wc) as (Hr2 & _ & Hl2 & Hc2 & Hd2 & Hs2).
    destruct (readClock wc) as [t wd]. cbn [snd] in Hr2, Hl2, Hc2, Hd2, Hs2.
    cbn [run].
    rewrite run_SendJSON_ok;
      [|cbn [emit resp]; rewrite Hr2; subst wc; cbn [stressBlocks resp];
        rewrite Hr1; subst wa; cbn [emit trackRequest resp]; now rewrite Hr
       |unfold StatusOK; lia|reflexivity|reflexivity].
    cbn [run]. eexists. exists (t - start). split; [reflexivity|].
    cbn [setResp captureStatus setWrappers emit resp log httpRequestsTotal
         httpRequestDuration stressRuns].
    rewrite Hr2, Hl2, Hc2, Hd2, Hs2. subst wc.
    cbn [stressBlocks resp log httpRequestsTotal httpRequestDuration stressRuns].
    rewrite Hr1, Hl1, Hc1, Hd1, Hs1. subst wa.
    cbn [emit trackRequest resp log httpRequestsTotal httpRequestDuration
         stressRuns].
    rewrite Hr, Hl, Hc, Hd, Hs, <- app_assoc. repeat split. }
  destruct Hrun as (w1 & elapsed & Hrun & Hr1 & Hl1 & Hc1 & Hd1 & Hs1).
  destruct (pipeline_routed stress r w w1 Hrun)
    as (w' & duration & Hserve & Hr' & Hc' & Hs' & Hd' & Hl').
  exists w', duration, elapsed.
  rewrite Hr', Hc', Hs', Hd', Hl', Hr1, Hl1, Hc1, Hd1, Hs1.
  rewrite Hm, Hp.
  match goal with
  | |- context [headerCalls (jsonResponse ?c ?d)] =>
      destruct (jsonResponse_fields c d) as (_ & _ & _ & _ & Hcalls)
  end.
  rewrite Hcalls. cbn [List.last]. rewrite <- app_assoc.
  repeat split; try reflexivity. exact Hserve.
Qed.

Lemma serve_home (r : Request) (w : World) :
  Method r = "GET" -> Path r = "/" ->
  exists w' duration,
    serveRequest router r w = (Returned, w') /\
    resp w' =
      jsonResponse StatusOK
        (DataResponse
           (response.New "success" "Welcome to the Resilient GitOps Platform!"
              "v1.0.0")) /\
    httpRequestsTotal w' = counted "/" "GET" (httpRequestsTotal w) /\
    log w' = log w ++ [homeEvent r; requestEvent r 200 duration] /\
    evLevel (requestEvent r 200 duration) = InfoLevel /\
    httpRequestDuration w' = httpRequestDuration w ++ [("/", "GET", duration)] /\
    stressRuns w' = stressRuns w.
Proof.
  intros Hm Hp.
  assert (Hroute : route numCPU ParseDuration Atoi durationString metricsHandler r
                   = Some HomeHandler).
  { unfold route. rewrite Hm, Hp. reflexivity. }
  rewrite (router_routed _ r w Hroute).
  destruct (handlerInput_frame w) as (Hr & Hl & Hc & Hd & Hs).
  assert (Hrun : exists w1,
    run (HomeHandler r) (handlerInput w) = (Returned, w1) /\
    resp w1 = jsonResponse StatusOK
                (DataResponse
                   (response.New "success"
                      "Welcome to the Resilient GitOps Platform!" "v1.0.0")) /\
    log w1 = log w ++ [homeEvent r] /\
    httpRequestsTotal w1 = counted (Path r) (Method r) (httpRequestsTotal w) /\
    httpRequestDuration w1 = httpRequestDuration w /\
    stressRuns w1 = stressRuns w).
  { unfold HomeHandler. cbn [run].
    rewrite run_SendJSON_ok;
      [|cbn [emit trackRequest resp]; now rewrite Hr
       |unfold StatusOK; lia|reflexivity|reflexivity].
    cbn [run]. eexists. split; [reflexivity|].
    cbn [setResp captureStatus setWrappers emit trackRequest resp log
         httpRequestsTotal httpRequestDuration stressRuns].
    rewrite Hr, Hl, Hc, Hd, Hs. repeat split. }
  destruct Hrun as (w1 & Hrun & Hr1 & Hl1 & Hc1 & Hd1 & Hs1).
  destruct (pipeline_routed HomeHandler r w w1 Hrun)
    as (w' & duration & Hserve & Hr' & Hc' & Hs' & Hd' & Hl').
  exists w', duration. rewrite Hr', Hc', Hs', Hd', Hl', Hr1, Hl1, Hc1, Hd1, Hs1.
  rewrite Hm, Hp.
  match goal with
  | |- context [headerCalls (jsonResponse ?c ?d)] =>
      destruct (jsonResponse_fields c d) as (_ & _ & _ & _ & Hcalls)
  end.
  rewrite Hcalls. cbn [List.last]. rewrite <- app_assoc.
  repeat split; try reflexivity. exact Hserve.
Qed.

Lemma serve_health (r : Request) (w : World) :
  Method r = "GET" -> Path r = "/health" ->
  exists w' duration,
    serveRequest router r w = (Returned, w') /\
    status (resp w') = StatusOK /\
    httpRequestDuration w' =
      httpRequestDuration w ++ [(Path r, Method r, duration)] /\
    stressRuns w' = stressRuns w.
Proof.
  intros Hm Hp.
  assert (Hroute : route numCPU ParseDuration Atoi durationString metricsHandler r
                   = Some HealthHandler).
  { unfold route. rewrite Hm, Hp. reflexivity. }
  rewrite (router_routed _ r w Hroute).
  destruct (handlerInput_frame w) as (Hr & _ & _ & Hd & Hs).
  assert (Hrun : exists w1,
    run (HealthHandler r) (handlerInput w) = (Returned, w1) /\
    status (resp w1) = StatusOK /\
    httpRequestDuration w1 = httpRequestDuration w /\
    stressRuns w1 = stressRuns w).
  { rewrite run_HealthHandler by now rewrite Hr.
    eexists. split; [reflexivity|]. cbn. auto. }
  destruct Hrun as (w1 & Hrun & Hs1 & Hd1 & Hr1).
  destruct (pipeline_routed HealthHandler r w w1 Hrun)
    as (w' & duration & Hserve & Hr' & _ & Hs' & Hd' & _).
  exists w', duration. rewrite Hr', Hs', Hd', Hs1, Hd1, Hr1. auto.
Qed.

(** A request with a handler of this repository: served, answered 200 or
    400, observed once. *)
Lemma serve_routed (r : Request) (w : World) :
  routed r ->
  exists w' duration,
    serveRequest router r w = (Returned, w') /\
    (status (resp w') = 200 \/ status (resp w') = 400) /\
    httpRequestDuration w' =
      httpRequestDuration w ++ [(Path r, Method r, duration)].
Proof.
  intros (Hm & [Hp|[Hp|Hp]]).
  - destruct (serve_home r w Hm Hp) as (w' & d & H1 & H2 & _ & _ & _ & H3 & _).
    exists w', d. rewrite H2, H3, Hm, Hp. cbn. auto.
  - destruct (serve_health r w Hm Hp) as (w' & d & H1 & H2 & H3 & _).
    exists w', d. rewrite H2, H3. auto.
  - destruct (parse r) as [req|err] eqn:Hparse.
    + destruct (serve_accepted_stress r req w Hm Hp Hparse)
        as (w' & d & el & H1 & H2 & _ & _ & _ & _ & H3).
      exists w', d. rewrite H2, H3, Hm, Hp. cbn. auto.
    + destruct (serve_rejected_stress r err w Hm Hp Hparse)
        as (w' & d & H1 & H2 & _ & _ & _ & H3 & _).
      exists w', d. rewrite H2, H3, Hm, Hp. cbn. auto.
Qed.

(** X18: whatever its parameters, a request to [/stress] starts at most
    one stress run, and a run it starts lasts between one and thirty
    seconds with between one and twice the number of cores workers. *)
Theorem stress_runs_bounded (r : Request) (w : World) :
  1 <= numCPU < 2 ^ 62 ->
  Method r = "GET" -> Path r = "/stress" ->
  exists w' runs,
    serveRequest router r w = (Returned, w') /\
    stressRuns w' = stressRuns w ++ runs /\
    (length runs <= 1)%nat /\
    Forall (boundedRun numCPU) runs.
Proof.
  intros Hcpu Hm Hp. destruct (parse r) as [req|err] eqn:Hparse.
  - destruct (serve_accepted_stress r req w Hm Hp Hparse)
      as (w' & d & el & H1 & _ & _ & H2 & _).
    exists w', [(DurationSeconds req * second, Workers req)].
    split; [exact H1|]. split; [exact H2|]. split; [cbn; lia|].
    constructor; [|constructor].
    destruct (parse_accepts_only_in_range numCPU ParseDuration Atoi r req Hparse)
      as (Hd & Hw & Hreq).
    rewrite parse_in_range in Hparse by assumption.
    rewrite (maxWorkers_double numCPU Hcpu) in Hparse.
    inversion Hparse; subst. unfold boundedRun, second.
    cbn [fst snd DurationSeconds Workers]. lia.
  - destruct (serve_rejected_stress r err w Hm Hp Hparse)
      as (w' & d & H1 & _ & _ & _ & _ & _ & H2).
    exists w', []. rewrite app_nil_r.
    split; [exact H1|]. split; [exact H2|]. split; [cbn; lia|constructor].
Qed.

(** X19: the server loop over requests that have a handler of this
    repository: every request returns with status 200 or 400, and the
    histogram of durations grows by exactly one observation per request,
    in the order of the requests and under the path and the method of
    each. *)
Theorem one_observation_per_request (reqs : list Request) (w : World) :
  Forall routed reqs ->
  exists durations,
    length durations = length reqs /\
    httpRequestDuration (snd (serve router reqs w)) =
      httpRequestDuration w ++
      zip_with (fun r d => (Path r, Method r, d)) reqs durations /\
    Forall (fun res => fst res = Returned /\
                       (status (snd res) = 200 \/ status (snd res) = 400))
      (fst (serve router reqs w)).
Proof.
  intros Hall. revert w. induction Hall as [|r rest Hr _ IH]; intros w.
  - exists []. cbn. rewrite app_nil_r. repeat split. constructor.
  - destruct (serve_routed r w Hr) as (w1 & d & Hserve & Hstatus & Hd).
    destruct (IH w1) as (ds & Hlen & Hds & Hres).
    exists (d :: ds). cbn [serve]. rewrite Hserve.
    destruct (serve router rest w1) as [results w2]. cbn [fst snd] in *.
    split; [cbn; lia|]. split.
    + rewrite Hds, Hd, <- app_assoc. reflexivity.
    + constructor; [|exact Hres]. cbn. auto.
Qed.

(** X5: a stress request that fails validation, served through the
    router: it is counted like any other, answered 400 with the message
    of the failure as JSON, logged twice at warn level (by the handler and
    by [Logging], with status 400), observed once, and no stress test is
    run. *)
Theorem rejected_stress_request_through_router (r : Request)
    (err : ValidationError) (w : World) :
  Method r = "GET" -> Path r = "/stress" ->
  parse r = inr err ->
  exists w' duration,
    serveRequest router r w = (Returned, w') /\
    resp w' =
      jsonResponse StatusBadRequest (DataResponse (response.Error (Message err))) /\
    httpRequestsTotal w' = counted "/stress" "GET" (httpRequestsTotal w) /\
    log w' = log w ++ [invalidStressEvent r err; requestEvent r 400 duration] /\
    evLevel (requestEvent r 400 duration) = WarnLevel /\
    httpRequestDuration w' =
      httpRequestDuration w ++ [("/stress", "GET", duration)] /\
    stressRuns w' = stressRuns w.
Proof. exact (serve_rejected_stress r err w). Qed.


(** X7: [GET /] through the router: the request is counted once under
    its labels, answered 200 with the welcome message and the version as
    JSON, observed once, and logged at debug level by the handler and at
    info level by [Logging]. *)
Theorem home_request_through_router (r : Request) (w : World) :
  Method r = "GET" -> Path r = "/" ->
  exists w' duration,
    serveRequest router r w = (Returned, w') /\
    resp w' =
      jsonResponse StatusOK
        (DataResponse
           (response.New "success" "Welcome to the Resilient GitOps Platform!"
              "v1.0.0")) /\
    httpRequestsTotal w' = counted "/" "GET" (httpRequestsTotal w) /\
    log w' = log w ++ [homeEvent r; requestEvent r 200 duration] /\
    evLevel (requestEvent r 200 duration) = InfoLevel /\
    httpRequestDuration w' = httpRequestDuration w ++ [("/", "GET", duration)] /\
    stressRuns w' = stressRuns w.
Proof. exact (serve_home r w). Qed.

End RouterProperties.


(** ** More on the middleware and on [SendJSON] *)

(** X8: when the handler panics after it has begun its response,
    [Recovery] cannot turn it into a 500: its [WriteHeader(500)] is one
    more call that changes nothing, the response keeps the status and the
    headers already sent, and the error line is appended to what the
    handler wrote (when the status allows a body). *)
Theorem Recovery_after_response_begun (next : Handler) (r : Request)
    (w : World) (v : string) (w1 : World) :
  run (next r) w = (Panicked v, w1) ->
  wroteHeader (resp w1) = true ->
  exists w',
    run (Recovery next r) w = (Returned, w') /\
    status (resp w') = status (resp w1) /\
    sentHeader (resp w') = sentHeader (resp w1) /\
    headerCalls (resp w') = headerCalls (resp w1) ++ [StatusInternalServerError] /\
    body (resp w') =
      if bodyAllowedForStatus (status (resp w1))
      then body (resp w1) ++ [errorLine "Internal server error"]
      else body (resp w1).
Proof.
  intros H Hw. unfold Recovery. cbn [run]. rewrite H.
  unfold recovered, httpError. cbn [run].
  change (Bytes (errorJSON "Internal server error" +:+ newline))
    with (errorLine "Internal server error").
  cbn [captureStatus setWrappers setResp emit resp].
  rewrite responseWriteHeader_superfluous by exact Hw.
  cbn [run setResp resp].
  rewrite responseWrite_committed by (exact Hw || reflexivity).
  cbn [recordCall headerSet status].
  destruct (bodyAllowedForStatus (status (resp w1))); cbn [run];
    eexists; (split; [reflexivity|]); cbn; repeat split.
Qed.

Lemma Recovery_after_response_begun_witness :
  exists w',
    run (Recovery lateFailingHandler (getRequest "/" [])) (initialWorld [])
    = (Returned, w') /\
    status (resp w') = 200 /\
    headerCalls (resp w') = [200; 500] /\
    body (resp w') = [Bytes "partial"; errorLine "Internal server error"].
Proof.
  destruct (Recovery_after_response_begun lateFailingHandler (getRequest "/" [])
              (initialWorld []) "late failure"
              (snd (run (lateFailingHandler (getRequest "/" [])) (initialWorld [])))
              eq_refl eq_refl)
    as (w' & Hrun & Hs & _ & Hc & Hb).
  exists w'. split; [exact Hrun|]. split; [exact Hs|]. split; [exact Hc|exact Hb].
Defined.

(** X9: a handler whose value cannot be encoded, behind [Logging]: the
    client receives the status code the handler gave to [SendJSON], but
    the wrapper has recorded the 500 of the fallback, so the request is
    logged with status 500 at error level. *)
Theorem encoding_failure_logged_as_500 (statusCode : Z) (r : Request) (w : World) :
  200 <= statusCode <= 999 ->
  bodyAllowedForStatus statusCode = true ->
  exists w' duration,
    serveRequest (Recovery (Logging (unencodableHandler statusCode))) r w
    = (Returned, w') /\
    status (resp w') = statusCode /\
    body (resp w') = [errorLine "Failed to encode response"] /\
    log w' = log w ++ [requestEvent r 500 duration] /\
    evLevel (requestEvent r 500 duration) = ErrorLevel.
Proof.
  intros Hc Hb.
  destruct (handlerInput_frame w) as (Hr & Hl & _).
  assert (Hrun : exists w1,
    run (unencodableHandler statusCode r) (handlerInput w) = (Returned, w1) /\
    status (resp w1) = statusCode /\
    body (resp w1) = [errorLine "Failed to encode response"] /\
    headerCalls (resp w1) = [statusCode; StatusInternalServerError] /\
    log w1 = log w).
  { unfold unencodableHandler.
    rewrite run_SendJSON_header by (rewrite ?Hr; (reflexivity || assumption)).
    rewrite run_encodeOrFail_error by (reflexivity || assumption).
    cbn [run]. eexists. split; [reflexivity|].
    cbn [setResp captureStatus setWrappers resp log appendBody recordCall
         headerSet commitHeader status body headerCalls].
    rewrite Hr, Hl. repeat split. }
  destruct Hrun as (w1 & Hrun & Hs1 & Hb1 & Hc1 & Hl1).
  destruct (pipeline_routed (unencodableHandler statusCode) r w w1 Hrun)
    as (w' & duration & Hserve & Hr' & _ & _ & _ & Hl').
  exists w', duration. rewrite Hr', Hl', Hs1, Hb1, Hc1, Hl1.
  repeat split. exact Hserve.
Qed.

Lemma encoding_failure_logged_as_500_witness :
  exists w' duration,
    serveRequest (Recovery (Logging (unencodableHandler 200)))
      (getRequest "/" []) (initialWorld [5; 7]) = (Returned, w') /\
    status (resp w') = 200 /\
    log w' = [requestEvent (getRequest "/" []) 500 duration].
Proof.
  destruct (encoding_failure_logged_as_500 200 (getRequest "/" [])
              (initialWorld [5; 7]) ltac:(lia) eq_refl)
    as (w' & duration & Hrun & Hs & _ & Hl & _).
  exists w', duration. split; [exact Hrun|]. split; [exact Hs|exact Hl].
Defined.

(** X10: [SendJSON] on a response not begun, for a value that can be
    encoded and a final status code that allows a body: it returns, after
    exactly one [WriteHeader] call, with the status given, the
    Content-Type application/json among the headers sent, and one line of
    JSON appended to the body. *)
Theorem SendJSON_writes_one_line (statusCode : Z) (data : Data) (w : World) :
  wroteHeader (resp w) = false ->
  200 <= statusCode <= 999 ->
  bodyAllowedForStatus statusCode = true ->
  encodable data = true ->
  exists w',
    run (SendJSON statusCode data Return_) w = (Returned, w') /\
    status (resp w') = statusCode /\
    sentHeader (resp w') !! "Content-Type" = Some "application/json" /\
    headerCalls (resp w') = headerCalls (resp w) ++ [statusCode] /\
    body (resp w') = body (resp w) ++ [JSONLine data] /\
    log w' = log w /\
    httpRequestsTotal w' = httpRequestsTotal w.
Proof.
  intros Hw Hc Hb He. rewrite run_SendJSON_ok by assumption. cbn [run].
  eexists. split; [reflexivity|]. cbn. repeat split. apply lookup_insert_eq.
Qed.

Lemma SendJSON_writes_one_line_witness :
  exists w',
    run (SendJSON StatusOK (DataResponse (response.Success "done")) Return_)
      (initialWorld []) = (Returned, w') /\
    status (resp w') = 200 /\
    headerCalls (resp w') = [200] /\
    body (resp w') = [JSONLine (DataResponse (response.Success "done"))].
Proof.
  destruct (SendJSON_writes_one_line StatusOK
              (DataResponse (response.Success "done")) (initialWorld [])
              eq_refl ltac:(unfold StatusOK; lia) eq_refl eq_refl)
    as (w' & Hrun & Hs & _ & Hc & Hb & _).
  exists w'. split; [exact Hrun|]. split; [exact Hs|]. split; [exact Hc|exact Hb].
Defined.

(** X11: [SendJSON] on a response already begun changes neither its
    status nor the headers sent: the Content-Type it sets stays in the
    header map only, its [WriteHeader] is ignored, and the value is
    appended as one more line to the body (when it can be encoded and the
    status allows a body). *)
Theorem SendJSON_on_response_begun (statusCode : Z) (data : Data) (w : World) :
  wroteHeader (resp w) = true ->
  encodable data = true ->
  bodyAllowedForStatus (status (resp w)) = true ->
  exists w',
    run (SendJSON statusCode data Return_) w = (Returned, w') /\
    status (resp w') = status (resp w) /\
    sentHeader (resp w') = sentHeader (resp w) /\
    header (resp w') !! "Content-Type" = Some "application/json" /\
    headerCalls (resp w') = headerCalls (resp w) ++ [statusCode] /\
    body (resp w') = body (resp w) ++ [JSONLine data].
Proof.
  intros Hw He Hb. unfold SendJSON. cbn [run].
  cbn [captureStatus setWrappers setResp resp].
  rewrite responseWriteHeader_superfluous by exact Hw.
  rewrite run_encodeOrFail_ok by (assumption || reflexivity).
  cbn [run]. eexists. split; [reflexivity|]. cbn. repeat split.
  apply lookup_insert_eq.
Qed.

Lemma SendJSON_on_response_begun_witness :
  let w := snd (run (WriteHeader 404 Return_) (initialWorld [])) in
  exists w',
    run (SendJSON StatusOK (DataResponse (response.Success "done")) Return_) w
    = (Returned, w') /\
    status (resp w') = 404 /\
    headerCalls (resp w') = [404; 200].
Proof.
  cbv zeta.
  destruct (SendJSON_on_response_begun StatusOK
              (DataResponse (response.Success "done"))
              (snd (run (WriteHeader 404 Return_) (initialWorld [])))
              eq_refl eq_refl eq_refl)
    as (w' & Hrun & Hs & _ & _ & Hc & _).
  exists w'. split; [exact Hrun|]. split; [exact Hs|exact Hc].
Defined.

(** ** Configuration and log level *)



(** X13: [getPort] never returns the empty string: it is the value of
    PORT when that is set and not empty, and 8080 both when PORT is not
    set and when it is set to the empty string; the address of the server
    is a colon followed by that port. *)
Theorem getPort_never_empty (env : gmap string string) :
  getPort env <> EmptyString /\
  (forall port, env !! "PORT" = Some port -> port <> EmptyString ->
                getPort env = port) /\
  (env !! "PORT" = None \/ env !! "PORT" = Some EmptyString ->
   getPort env = "8080") /\
  listenAddr (<["PORT" := "9090"]> env) = ":9090" /\
  listenAddr (delete "PORT" env) = ":8080".
Proof.
  unfold listenAddr, getPort, Getenv. cbv zeta. repeat split.
  - destruct (env !! "PORT") as [p|]; cbn.
    + destruct (String.eqb_spec p EmptyString); [discriminate|assumption].
    + discriminate.
  - intros port -> Hne. cbn.
    destruct (String.eqb_spec port EmptyString); congruence.
  - intros [->| ->]; reflexivity.
  - now rewrite lookup_insert_eq.
  - now rewrite lookup_delete_eq.
Qed.

(** ** More on the load generator *)

Lemma pending_le_length pool : pending pool <= Z.of_nat (length pool).
Proof.
  induction pool as [|ws rest IH]; cbn [pending length]; [lia|].
  destruct ws; cbn [pendingOf]; lia.
Qed.

(** X14: the counter of the wait group is never negative and never above
    the number of workers asked for: at every moment it is the number of
    workers launched that have not called [wg.Done()] yet, plus one
    between a [wg.Add(1)] and the [go] statement that follows it. *)
Theorem waitgroup_counter_bounds (duration workers t0 : Z) (st : Stress) :
  stressReachable duration workers t0 st ->
  0 <= wg st <= Z.max workers 0 /\
  wg st = pending (pool st) + match main st with Spawning _ => 1 | _ => 0 end.
Proof.
  intros Hr. destruct (stressReachable_inv _ _ _ _ Hr) as (_ & _ & Hm).
  pose proof (pending_nonneg (pool st)).
  pose proof (pending_le_length (pool st)).
  destruct (main st); lia.
Qed.

Lemma waitgroup_counter_bounds_witness :
  let st := mkStress 100 (Spawning 1) 2 [Looping 100] in
  stressExec (3 * second) 2 [MainStep; MainStep; WorkerStep 0; MainStep]
    (stressInit 100) = Some st /\
  0 <= wg st <= 2 /\
  wg st = pending (pool st) + 1.
Proof.
  cbv zeta. split; [reflexivity|].
  exact (waitgroup_counter_bounds (3 * second) 2 100
           (mkStress 100 (Spawning 1) 2 [Looping 100])
           (ex_intro _ [MainStep; MainStep; WorkerStep 0; MainStep] eq_refl)).
Defined.

(** X15: with a worker count of zero or less the loop of
    [runMultiCoreStress] does not run: no worker is ever launched, the
    counter stays at zero, and the caller passes [wg.Wait()] in its second
    step, at the clock reading of the call. *)
Theorem no_workers_returns_at_once (duration workers t0 : Z) :
  workers <= 0 ->
  stressExec duration workers [MainStep; MainStep] (stressInit t0)
  = Some (mkStress t0 Joined 0 []) /\
  forall st, stressReachable duration workers t0 st ->
             pool st = [] /\ wg st = 0.
Proof.
  intros Hw. split.
  - cbn [stressExec stressStep stressInit runMultiCoreStress main now wg pool].
    destruct (Z.ltb_spec 0 workers); [lia|]. reflexivity.
  - intros st Hr. destruct (stressReachable_inv _ _ _ _ Hr) as (_ & _ & Hm).
    assert (Hlen : length (pool st) = 0%nat) by (destruct (main st); lia).
    destruct (pool st) as [|ws rest]; [|discriminate Hlen].
    split; [reflexivity|]. cbn [pending] in Hm. destruct (main st); lia.
Qed.

Lemma no_workers_returns_at_once_witness :
  stressExec second 0 [MainStep; MainStep] (stressInit 100)
  = Some (mkStress 100 Joined 0 []).
Proof.
  exact (proj1 (no_workers_returns_at_once second 0 100 ltac:(lia))).
Defined.

Lemma stressExec_app duration workers s1 s2 st st1 :
  stressExec duration workers s1 st = Some st1 ->
  stressExec duration workers (s1 ++ s2) st = stressExec duration workers s2 st1.
Proof.
  revert st. induction s1 as [|e s1 IH]; intros st H; cbn [stressExec app] in *.
  - now inversion H.
  - destruct (stressStep duration workers e st) as [st'|]; [|discriminate].
    now apply IH.
Qed.

Lemma pending_finished pool : Forall isFinished pool -> pending pool = 0.
Proof.
  induction 1 as [|ws rest Hws _ IH]; [reflexivity|].
  cbn [pending]. destruct ws; try contradiction. cbn [pendingOf]. lia.
Qed.

(** The caller gets from the head of its loop into [wg.Wait()]. *)
Lemma launchSteps_run duration workers m :
  forall i st,
    main st = Launching i -> Z.to_nat (workers - i) = m ->
    exists st',
      stressExec duration workers (launchSteps m) st = Some st' /\
      main st' = Waiting.
Proof.
  induction m as [|m IH]; intros i st Hm Hi; cbn [launchSteps stressExec stressStep].
  - unfold runMultiCoreStress. rewrite Hm.
    destruct (Z.ltb_spec i workers); [lia|]. eexists. split; reflexivity.
  - unfold runMultiCoreStress at 1. rewrite Hm.
    destruct (Z.ltb_spec i workers); [|lia].
    unfold runMultiCoreStress at 1. cbn [main now wg pool].
    apply (IH (i + 1)); [reflexivity|lia].
Qed.

(** One worker gets from where it stands to its end, whatever the others
    do not do meanwhile. *)
Lemma drainWorker_run duration workers (k : nat) ws st :
  pool st !! k = Some ws ->
  (forall start, ws = Looping start -> start <= now st) ->
  exists st' start leftAt,
    stressExec duration workers (drainWorker duration ws k) st = Some st' /\
    main st' = main st /\ now st <= now st' /\
    pool st' = <[k := Finished start leftAt]> (pool st).
Proof.
  intros Hk Hs. pose proof (lookup_lt_Some _ _ _ Hk) as Hlt.
  destruct ws as [|start|start leftAt|start leftAt];
    cbn [drainWorker stressExec stressStep].
  - unfold stressWorker at 1. rewrite Hk.
    destruct (Z.leb_spec 0 (Z.max 0 duration)); [|lia].
    unfold stressWorker at 1. cbn [now main wg pool].
    rewrite list_lookup_insert_eq by exact Hlt.
    destruct (Z.ltb_spec (now st + Z.max 0 duration - now st) duration); [lia|].
    unfold stressWorker at 1. cbn [now main wg pool].
    rewrite list_lookup_insert_eq by (rewrite length_insert; exact Hlt).
    eexists. exists (now st), (now st + Z.max 0 duration).
    split; [reflexivity|]. cbn [now main wg pool].
    rewrite !list_insert_insert_eq. repeat split. lia.
  - specialize (Hs start eq_refl).
    destruct (Z.leb_spec 0 (Z.max 0 duration)); [|lia].
    unfold stressWorker at 1. cbn [now main wg pool]. rewrite Hk.
    destruct (Z.ltb_spec (now st + Z.max 0 duration - start) duration); [lia|].
    unfold stressWorker at 1. cbn [now main wg pool].
    rewrite list_lookup_insert_eq by exact Hlt.
    eexists. exists start, (now st + Z.max 0 duration).
    split; [reflexivity|]. cbn [now main wg pool].
    rewrite !list_insert_insert_eq. repeat split. lia.
  - unfold stressWorker. rewrite Hk.
    eexists. exists start, leftAt. split; [reflexivity|].
    cbn [now main wg pool]. repeat split. lia.
  - exists st, start, leftAt. split; [reflexivity|]. repeat split; [lia|].
    symmetry. now apply list_insert_id.
Qed.

(** All the workers of a pool get to their end, one after the other. *)
Lemma drainFrom_run duration workers suf :
  forall pre st,
    pool st = pre ++ suf ->
    Forall (fun ws => forall start, ws = Looping start -> start <= now st) suf ->
    exists st' fin,
      stressExec duration workers (drainFrom duration (length pre) suf) st
      = Some st' /\
      main st' = main st /\
      pool st' = pre ++ fin /\ Forall isFinished fin.
Proof.
  induction suf as [|ws rest IH]; intros pre st Hpool Hall; cbn [drainFrom].
  - exists st, []. repeat split; [exact Hpool|constructor].
  - inversion Hall as [|? ? Hws Hrest]; subst.
    assert (Hk : pool st !! length pre = Some ws).
    { rewrite Hpool. apply list_lookup_middle. reflexivity. }
    destruct (drainWorker_run duration workers (length pre) ws st Hk Hws)
      as (st1 & start & leftAt & Hrun & Hmain & Hnow & Hp1).
    rewrite Hpool in Hp1.
    replace (length pre) with (length pre + 0)%nat in Hp1 at 1 by lia.
    rewrite insert_app_r in Hp1. cbn in Hp1.
    destruct (IH (pre ++ [Finished start leftAt]) st1) as (st' & fin & Hrun' & Hmain' & Hp' & Hfin).
    { rewrite Hp1, <- app_assoc. reflexivity. }
    { eapply Forall_impl; [exact Hrest|]. cbn. intros x Hx s Hxs.
      specialize (Hx s Hxs). lia. }
    exists st', (Finished start leftAt :: fin).
    rewrite (stressExec_app _ _ _ _ _ _ Hrun).
    rewrite length_app in Hrun'. cbn [length] in Hrun'.
    replace (length pre + 1)%nat with (S (length pre)) in Hrun' by lia.
    split; [exact Hrun'|]. split; [congruence|].
    split; [now rewrite Hp', <- app_assoc|].
    constructor; [exact I|exact Hfin].
Qed.

(** X16: the join cannot get stuck.  From every state the load generator
    can reach there is a way on to the return of the caller: the caller
    finishes launching, each worker runs until its duration has passed and
    calls [wg.Done()], and [wg.Wait()] lets the caller through. *)
Theorem load_generator_can_always_finish (duration workers t0 : Z) (st : Stress) :
  stressReachable duration workers t0 st ->
  exists schedule st',
    stressExec duration workers schedule st = Some st' /\
    main st' = Joined /\
    stressReachable duration workers t0 st'.
Proof.
  intros Hr.
  (* it is enough to get to the return from the state at hand *)
  assert (Hgoal : exists schedule st',
            stressExec duration workers schedule st = Some st' /\
            main st' = Joined).
  { assert (Hwait : forall s, stressInv duration workers t0 s -> main s = Waiting ->
              exists schedule s',
                stressExec duration workers schedule s = Some s' /\ main s' = Joined).
    { intros s Hinv Hmain.
      destruct Hinv as (Ht & Hall & Hm).
      destruct (drainFrom_run duration workers (pool s) [] s eq_refl)
        as (s1 & fin & Hrun & Hmain1 & Hp1 & Hfin).
      { eapply Forall_impl; [exact Hall|]. cbn. intros ws Hok start ->.
        cbn in Hok. lia. }
      cbn [length app] in Hrun, Hp1.
      assert (Hinv1 : stressInv duration workers t0 s1).
      { eapply stressExec_inv; [|exact Hrun]. repeat split; assumption. }
      destruct Hinv1 as (_ & _ & Hm1). rewrite Hmain1, Hmain in Hm1.
      destruct Hm1 as (_ & Hwg). rewrite Hp1, (pending_finished fin Hfin) in Hwg.
      exists (drainFrom duration 0 (pool s) ++ [MainStep]).
      eexists. rewrite (stressExec_app _ _ _ _ _ _ Hrun).
      cbn [stressExec stressStep]. unfold runMultiCoreStress.
      rewrite Hmain1, Hmain, Hwg. cbn. split; reflexivity. }
    assert (Hlaunch : forall s i, stressInv duration workers t0 s ->
              main s = Launching i ->
              exists schedule s',
                stressExec duration workers schedule s = Some s' /\ main s' = Joined).
    { intros s i Hinv Hmain.
      destruct (launchSteps_run duration workers (Z.to_nat (workers - i)) i s
                  Hmain eq_refl) as (s1 & Hrun & Hmain1).
      destruct (Hwait s1 (stressExec_inv _ _ _ _ _ _ Hinv Hrun) Hmain1)
        as (schedule & s' & Hrun' & Hj).
      exists (launchSteps (Z.to_nat (workers - i)) ++ schedule), s'.
      rewrite (stressExec_app _ _ _ _ _ _ Hrun). auto. }
    pose proof (stressReachable_inv _ _ _ _ Hr) as Hinv.
    destruct (main st) as [i|i| |] eqn:Hmain.
    - exact (Hlaunch st i Hinv Hmain).
    - assert (Hstep : stressExec duration workers [MainStep] st
                      = Some (mkStress (now st) (Launching (i + 1)) (wg st)
                                (pool st ++ [Spawned]))).
      { cbn [stressExec stressStep]. unfold runMultiCoreStress. now rewrite Hmain. }
      destruct (Hlaunch _ (i + 1) (stressExec_inv _ _ _ _ _ _ Hinv Hstep) eq_refl)
        as (schedule & s' & Hrun' & Hj).
      exists ([MainStep] ++ schedule), s'.
      rewrite (stressExec_app _ _ _ _ _ _ Hstep). auto.
    - exact (Hwait st Hinv Hmain).
    - exists [], st. split; [reflexivity|exact Hmain]. }
  destruct Hgoal as (schedule & st' & Hrun & Hj).
  exists schedule, st'. split; [exact Hrun|]. split; [exact Hj|].
  destruct Hr as [s0 Hs0]. exists (s0 ++ schedule).
  now rewrite (stressExec_app _ _ _ _ _ _ Hs0).
Qed.

Lemma load_generator_can_always_finish_witness :
  exists schedule st',
    stressExec (3 * second) 2 schedule
      (mkStress 100 (Spawning 1) 2 [Looping 100]) = Some st' /\
    main st' = Joined.
Proof.
  destruct (load_generator_can_always_finish (3 * second) 2 100
              (mkStress 100 (Spawning 1) 2 [Looping 100])
              (ex_intro _ [MainStep; MainStep; WorkerStep 0; MainStep] eq_refl))
    as (schedule & st' & Hrun & Hj & _).
  exists schedule, st'. split; [exact Hrun|exact Hj].
Defined.

(** ** The clock *)

Lemma readClock_forward w :
  fst (readClock w) = clock (snd (readClock w)) /\
  (forwardTicks w ->
   clock w <= clock (snd (readClock w)) /\ forwardTicks (snd (readClock w))).
Proof.
  unfold readClock, forwardTicks. destruct (ticks w) as [|t ts] eqn:Ht; cbn.
  - split; [reflexivity|]. intros _. rewrite Ht. split; [lia|constructor].
  - split; [reflexivity|]. intros H. inversion H; subst. split; [lia|assumption].
Qed.

(** No program sets the clock back. *)
Lemma run_clock p :
  forall w, forwardTicks w ->
    clock w <= clock (snd (run p w)) /\ forwardTicks (snd (run p w)).
Proof.
  induction p as
    [ | v | key value k IH | code k IH | b k IH | e k IH | pa me k IH
    | pa me d k IH | k IH | du wo k IH | body IHb k IH | body IHb h IH ];
    intros w Hw; cbn [run].
  - split; [cbn; lia|exact Hw].
  - split; [cbn; lia|exact Hw].
  - apply (IH (setResp _ w)). exact Hw.
  - destruct (responseWriteHeader code (resp (captureStatus code w))) as [[|v] rs].
    + apply (IH (setResp rs (captureStatus code w))). exact Hw.
    + split; [cbn; lia|exact Hw].
  - destruct (responseWrite b (resp w)) as [ok rs].
    apply (IH ok (setResp rs w)). exact Hw.
  - apply (IH (emit e w)). exact Hw.
  - apply (IH (trackRequest pa me w)). exact Hw.
  - apply (IH (observeRequestDuration pa me d w)). exact Hw.
  - destruct (readClock_forward w) as (_ & Hf). destruct (Hf Hw) as (Hc & Hw1).
    destruct (readClock w) as [t w1]. cbn [snd] in Hc, Hw1.
    destruct (IH t w1 Hw1). split; [lia|assumption].
  - assert (Hb : clock w <= clock (stressBlocks du wo w) /\
                 forwardTicks (stressBlocks du wo w)).
    { split; [|exact Hw]. cbn. destruct (0 <? wo); lia. }
    destruct Hb as [Hc Hw1]. destruct (IH _ Hw1). split; [lia|assumption].
  - destruct (IHb (setWrappers (200 :: wrappers w) w) Hw) as [Hc Hw1].
    destruct (run body (setWrappers (200 :: wrappers w) w)) as [[|v] w1];
      cbn [snd] in Hc, Hw1.
    + destruct (IH (hd 200 (wrappers w1)) (setWrappers (tl (wrappers w1)) w1) Hw1)
        as [Hc2 Hw2].
      cbn [setWrappers clock] in Hc, Hc2. split; [lia|assumption].
    + split; [exact Hc|exact Hw1].
  - destruct (IHb w Hw) as [Hc Hw1].
    destruct (run body w) as [[|v] w1]; cbn [snd] in Hc, Hw1.
    + split; assumption.
    + destruct (IH v w1 Hw1). split; [lia|assumption].
Qed.

(** X17: on a clock that only moves forward, the duration [Logging]
    observes for a request is never negative, whatever the handler
    does. *)
Theorem observed_duration_not_negative (next : Handler) (r : Request)
    (w w1 : World) :
  forwardTicks w ->
  handlerRun next r w = (Returned, w1) ->
  exists w' duration,
    run (Logging next r) w = (Returned, w') /\
    httpRequestDuration w' =
      httpRequestDuration w1 ++ [(Path r, Method r, duration)] /\
    0 <= duration.
Proof.
  intros Hw H. rewrite (run_Logging_returned next r w w1 H). cbv zeta.
  set (w2 := setWrappers (tl (wrappers w1)) w1).
  eexists. exists (fst (readClock w2) - fst (readClock w)).
  split; [reflexivity|].
  destruct (readClock_frame w2) as (_ & _ & _ & _ & Hd & _).
  cbn [emit observeRequestDuration httpRequestDuration]. rewrite Hd.
  split; [reflexivity|].
  destruct (readClock_forward w) as (Ht0 & Hf0). destruct (Hf0 Hw) as (_ & Hw0).
  unfold handlerRun in H.
  pose proof (run_clock (next r)
                (setWrappers (200 :: wrappers (snd (readClock w)))
                   (snd (readClock w))) Hw0) as Hrun.
  rewrite H in Hrun. cbn [snd setWrappers clock] in Hrun.
  destruct Hrun as [Hc1 Hw1].
  destruct (readClock_forward w2) as (Ht2 & Hf2).
  destruct (Hf2 Hw1) as (Hc2 & _). rewrite Ht0, Ht2. subst w2.
  cbn [setWrappers clock] in Hc2. lia.
Qed.

Lemma observed_duration_not_negative_witness :
  exists w' duration,
    run (Logging HealthHandler (getRequest "/health" [])) (initialWorld [5; 7])
    = (Returned, w') /\
    httpRequestDuration w' = [("/health", "GET", duration)] /\
    0 <= duration.
Proof.
  exact (observed_duration_not_negative HealthHandler (getRequest "/health" [])
           (initialWorld [5; 7])
           (snd (handlerRun HealthHandler (getRequest "/health" [])
                   (initialWorld [5; 7])))
           ltac:(repeat constructor; lia) eq_refl).
Defined.

(** ** The further properties on a host of four cores *)

Lemma accepted_request_within_bounds_witness :
  let r := getRequest "/stress" [("duration", "3s"); ("workers", "100")] in
  parse4 r = inl (mkStressRequest 3 8) /\
  1 <= 3 <= 30 /\ 1 <= 8 <= 2 * 4.
Proof.
  cbv zeta. split; [reflexivity|].
  destruct (accepted_request_within_bounds 4 timeParseDuration strconvAtoi
              (getRequest "/stress" [("duration", "3s"); ("workers", "100")])
              (mkStressRequest 3 8) ltac:(lia) eq_refl) as (Hd & Hw & _).
  split; [exact Hd|exact Hw].
Defined.

Lemma accepted_iff_in_range_witness :
  exists req, parse4 (getRequest "/stress" [("duration", "30s")]) = inl req.
Proof.
  exact (proj2 (accepted_iff_in_range 4 timeParseDuration strconvAtoi
                  (getRequest "/stress" [("duration", "30s")]))
           ltac:(vm_compute; repeat split; discriminate)).
Defined.

Lemma rejection_names_first_failing_field_witness :
  let r := getRequest "/stress" [("duration", "31s"); ("workers", "0")] in
  parse4 r = inr durationError /\ durationError <> unknownError.
Proof.
  cbv zeta. split; [reflexivity|].
  exact (proj1 (rejection_names_first_failing_field 4 timeParseDuration strconvAtoi
                  (getRequest "/stress" [("duration", "31s"); ("workers", "0")])
                  durationError eq_refl)).
Defined.

Lemma rejected_stress_request_through_router_witness :
  let r := getRequest "/stress" [("workers", "0")] in
  exists w' duration,
    serveRequest router4 r (initialWorld [5; 7]) = (Returned, w') /\
    status (resp w') = 400 /\
    log w' = [invalidStressEvent r (workersError 8); requestEvent r 400 duration] /\
    stressRuns w' = [].
Proof.
  cbv zeta.
  destruct (rejected_stress_request_through_router 4 timeParseDuration strconvAtoi
              nanoseconds (fun _ => Return_) (fun _ => Return_)
              (getRequest "/stress" [("workers", "0")]) (workersError 8)
              (initialWorld [5; 7]) eq_refl eq_refl eq_refl)
    as (w' & duration & Hrun & Hresp & _ & Hlog & _ & _ & Hs).
  exists w', duration. split; [exact Hrun|].
  split; [rewrite Hresp; reflexivity|]. split; [exact Hlog|exact Hs].
Defined.


Lemma home_request_through_router_witness :
  let r := getRequest "/" [] in
  exists w' duration,
    serveRequest router4 r (initialWorld [5; 7]) = (Returned, w') /\
    status (resp w') = 200 /\
    counterValue (httpRequestsTotal w') "/" "GET" = 1%nat /\
    log w' = [homeEvent r; requestEvent r 200 duration].
Proof.
  cbv zeta.
  destruct (home_request_through_router 4 timeParseDuration strconvAtoi
              nanoseconds (fun _ => Return_) (fun _ => Return_)
              (getRequest "/" []) (initialWorld [5; 7]) eq_refl eq_refl)
    as (w' & duration & Hrun & Hresp & Hc & Hlog & _).
  exists w', duration. split; [exact Hrun|].
  split; [rewrite Hresp; reflexivity|].
  split; [rewrite Hc; reflexivity|exact Hlog].
Defined.

Lemma getPort_never_empty_witness :
  getPort (<["PORT" := "3000"]> ∅) = "3000" /\ getPort ∅ = "8080".
Proof.
  destruct (getPort_never_empty (<["PORT" := "3000"]> ∅)) as (_ & H & _).
  destruct (getPort_never_empty ∅) as (_ & _ & H0 & _).
  split.
  - exact (H "3000" eq_refl ltac:(discriminate)).
  - exact (H0 (or_introl eq_refl)).
Defined.

Lemma stress_runs_bounded_witness :
  exists w' runs,
    serveRequest router4
      (getRequest "/stress" [("duration", "30s"); ("workers", "64")])
      (initialWorld [5; 7]) = (Returned, w') /\
    stressRuns w' = [] ++ runs /\
    Forall (boundedRun 4) runs.
Proof.
  destruct (stress_runs_bounded 4 timeParseDuration strconvAtoi nanoseconds
              (fun _ => Return_) (fun _ => Return_)
              (getRequest "/stress" [("duration", "30s"); ("workers", "64")])
              (initialWorld [5; 7]) ltac:(lia) eq_refl eq_refl)
    as (w' & runs & Hrun & Hs & _ & Hb).
  exists w', runs. split; [exact Hrun|]. split; [exact Hs|exact Hb].
Defined.

Lemma one_observation_per_request_witness :
  exists durations,
    length durations = 3%nat /\
    httpRequestDuration
      (snd (serve router4
              [getRequest "/" []; getRequest "/health" [];
               getRequest "/stress" [("workers", "0")]]
              (initialWorld [1; 2; 3; 4; 5; 6]))) =
    [] ++
    zip_with (fun r d => (Path r, Method r, d))
      [getRequest "/" []; getRequest "/health" [];
       getRequest "/stress" [("workers", "0")]] durations.
Proof.
  destruct (one_observation_per_request 4 timeParseDuration strconvAtoi nanoseconds
              (fun _ => Return_) (fun _ => Return_)
              [getRequest "/" []; getRequest "/health" [];
               getRequest "/stress" [("workers", "0")]]
              (initialWorld [1; 2; 3; 4; 5; 6])
              ltac:(repeat (apply List.Forall_cons;
                              [split;
                               [reflexivity
                               |first [left; reflexivity
                                      |right; left; reflexivity
                                      |right; right; reflexivity]]|]);
                    apply List.Forall_nil))
    as (ds & Hlen & Hd & _).
  exists ds. split; [exact Hlen|exact Hd].
Defined.
